(** * OAuthenticator: identity-provider policy of the CILogon and generic
      authenticators

    A shallow embedding of [oauthenticator/cilogon.py] and
    [oauthenticator/generic.py]: per-provider username derivation, validation
    of the [allowed_idps] configuration, extraction of group membership from
    the userinfo document, and the allow / admin decisions.

    Conventions of the embedding:
    - a Python [str] is the list of its code points, [pystr]; [len] is the
      length of the list and a slice is a [take] or a [drop]; string literals
      of the ASCII range are written between double quotes;
    - [str.lower] and [urllib.parse.urlparse] are functions of Python whose
      code is not in the repository: they are fields of the class [Library],
      with no law assumed of them ([str.lower] keeps neither the length of a
      text nor its cutting points, and [urlparse] can raise);
    - a userinfo document (decoded JSON) is a [pyval]; JSON objects are finite
      maps with string keys;
    - a method that can raise or log returns in the monad [M], which records
      the log records emitted so far and either a value or the exception
      raised;
    - [self] is a record of the configuration traits the methods read. *)

From Stdlib Require Import ZArith NArith String Ascii List Floats Lia.
From Stdlib Require DecimalString.
From stdpp Require Import base option list gmap.

Open Scope Z_scope.

(** ** Python strings *)

(** A [str]: its code points, in order. *)
Abbreviation pystr := (list N).

(** String literals: ["idp"] is the list of the code points of its
    characters, which must be ASCII. *)
Inductive literal : Set :=
| lit_nil
| lit_cons (c : N) (rest : literal).

Fixpoint literal_parse (bytes : list Byte.byte) : option literal :=
  match bytes with
  | [] => Some lit_nil
  | b :: rest =>
      let n := Byte.to_N b in
      if (n <? 128)%N
      then option_map (lit_cons n) (literal_parse rest)
      else None
  end.

Fixpoint literal_print (s : literal) : option (list Byte.byte) :=
  match s with
  | lit_nil => Some []
  | lit_cons c rest =>
      if (c <? 128)%N then
        match Byte.of_N c, literal_print rest with
        | Some b, Some l => Some (b :: l)
        | _, _ => None
        end
      else None
  end.

Declare Scope pystr_scope.
Delimit Scope pystr_scope with pystr.
#[warnings="-via-type-remapping,-via-type-mismatch"]
String Notation list literal_parse literal_print
  (via literal mapping [[nil] => lit_nil, [cons] => lit_cons]) : pystr_scope.
Open Scope pystr_scope.

Module PyStr.

(** [ord(c)]: the code point of an ASCII character. *)
Definition ord (c : ascii) : N := N_of_ascii c.
Arguments ord c%_char.

(** [s.endswith(t)] *)
Definition endswith (s t : pystr) : bool := bool_decide (t `suffix_of` s).

(** [s[:-k]] for [k > 0]: everything but the last [k] code points (the empty
    string when [s] is shorter than [k]). *)
Definition slice_to_neg (s : pystr) (k : nat) : pystr :=
  take (length s - k) s.

(** [s.partition(sep)] for a one-character separator: the text before and
    after the first occurrence of [sep], if there is one. *)
Fixpoint partition (sep : N) (s : pystr) : option (pystr * pystr) :=
  match s with
  | [] => None
  | c :: r =>
      if N.eqb c sep then Some ([], r)
      else match partition sep r with
           | Some (a, b) => Some (c :: a, b)
           | None => None
           end
  end.

(** [s.split(sep, 1)] *)
Definition split1 (sep : N) (s : pystr) : list pystr :=
  match partition sep s with
  | Some (a, b) => [a; b]
  | None => [s]
  end.

(** [s.split(sep)], as its first field and the remaining ones: the result of
    [str.split] with a separator is never the empty list. *)
Fixpoint split_fields (sep : N) (s : pystr) : pystr * list pystr :=
  match s with
  | [] => ([], [])
  | c :: r =>
      let '(h, t) := split_fields sep r in
      if N.eqb c sep then ([], h :: t) else (c :: h, t)
  end.

Definition split (sep : N) (s : pystr) : list pystr :=
  let '(h, t) := split_fields sep s in h :: t.

(** [c in s] for a character [c] *)
Fixpoint contains (c : N) (s : pystr) : bool :=
  match s with
  | [] => false
  | c' :: r => N.eqb c' c || contains c r
  end.

(** [list(s)]: the one-character strings of [s], in order *)
Fixpoint chars (s : pystr) : list pystr :=
  match s with
  | [] => []
  | c :: r => [c] :: chars r
  end.

End PyStr.

(** ** Python values *)

(** What [json.loads] can produce. *)
#[warnings="-register-all"]
Inductive pyval : Type :=
| PNone
| PBool (b : bool)
| PInt (z : Z)
| PFloat (f : float)
| PStr (s : pystr)
| PList (l : list pyval)
| PDict (d : gmap pystr pyval).

(** A JSON object: the userinfo response. *)
Abbreviation pydict := (gmap pystr pyval).

(** [bool(v)] *)
Definition truthy (v : pyval) : bool :=
  match v with
  | PNone => false
  | PBool b => b
  | PInt z => negb (z =? 0)
  | PFloat f => negb (PrimFloat.eqb f 0%float)
  | PStr s => match s with [] => false | _ => true end
  | PList l => match l with [] => false | _ => true end
  | PDict d => negb (bool_decide (d = ∅))
  end.

(** Lists and dicts have no hash. *)
Definition hashable (v : pyval) : bool :=
  match v with
  | PList _ | PDict _ => false
  | _ => true
  end.

(** ** Exceptions, log records and the monad of the methods *)

(** The text of a message, by its template and the values formatted into
    it. *)
Inductive message : Type :=
| MsgIdpClaimMissing
    (* 'idp' claim was not part of the response to the userdata_url *)
| MsgIdpNotConfigured (user_idp : pyval)
    (* Login with identity provider {user_idp} is not pre-configured *)
| MsgUsernameClaimNotFound (username_claim : pystr) (user_idp : pyval)
                           (keys : gset pystr)
    (* Configured username_claim {username_claim} for {user_idp} was not
       found in the response {user_info.keys()} *)
| MsgDomainNotAllowed (user_domain : pystr)
    (* Login with domain @{user_domain} is not allowed *)
| MsgNoAllowedIdps
    (* One or more allowed_idps must be configured *)
| MsgNotAnEntityId (entity_id : pystr)
    (* Trying to allow an auth provider: {entity_id}, that doesn't look like
       a valid CILogon EntityID. *)
| MsgKeysMustBeEntityIds
    (* The keys of `allowed_idps` **must** be CILogon permitted EntityIDs.
       See https://cilogon.org/idplist for the list of EntityIDs of each
       IDP. *)
| MsgNoUsernameFound (username_claim : pystr) (user_info : pydict)
    (* No {self.username_claim} found in {user_info} *)
| MsgGroupsKeyNotFound (claim_groups_key : pystr)
    (* The claim_groups_key {self.claim_groups_key} does not exist in the
       user token *)
| MsgOfLibrary (text : pystr)
    (* the message of an exception raised inside a library function *).

Inductive exn : Type :=
| HTTPError (status : Z) (msg : message)   (* tornado.web.HTTPError *)
| ValueError (msg : message)
| ValidationError                          (* jsonschema *)
| TypeError
| KeyError
| IndexError
| AttributeError
| OtherError (name : string).              (* raised by a configured callable *)

Inductive level : Type := ERROR | WARNING.

Inductive result (A : Type) : Type :=
| Ok (a : A)
| Raise (e : exn).
Arguments Ok {A} a.
Arguments Raise {A} e.

Record M (A : Type) : Type := mkM {
  logged : list (level * message);
  outcome : result A
}.
Arguments mkM {A} _ _.
Arguments logged {A} _.
Arguments outcome {A} _.

Definition ret {A} (a : A) : M A := mkM [] (Ok a).
Definition raise {A} (e : exn) : M A := mkM [] (Raise e).
Definition log (l : level) (m : message) : M unit := mkM [(l, m)] (Ok tt).

Definition bind {A B} (m : M A) (k : A -> M B) : M B :=
  match outcome m with
  | Ok a => mkM (logged m ++ logged (k a)) (outcome (k a))
  | Raise e => mkM (logged m) (Raise e)
  end.

(** stdpp's monad notations: [x ← m; k] and [m;; k]. *)
#[global] Instance M_ret : MRet M := @ret.
#[global] Instance M_bind : MBind M := fun A B k m => bind m k.

(** [d[k]] on an optional entry: [KeyError] when it is not there. *)
Definition item {A} (o : option A) : M A :=
  match o with
  | Some a => ret a
  | None => raise KeyError
  end.

(** The call of a function that logs nothing: its value, or the exception it
    raises. *)
Definition call {A} (r : result A) : M A := mkM [] r.

(** ** Library functions

    Functions of Python and of the libraries the modules import, whose code
    is not part of the repository. *)
Class Library : Type := {
  (** [str(v)], as an f-string formats a value; the identity on strings *)
  py_str : pyval -> pystr;
  py_str_PStr : forall s, py_str (PStr s) = s;
  (** [s.lower()] *)
  py_lower : pystr -> pystr;
  (** [urllib.parse.urlparse(s).scheme], or the exception that [urlparse]
      raises *)
  urlparse_scheme : pystr -> result pystr
}.

(** [try: body except TypeError: handler] *)
Definition except_TypeError {A} (body handler : M A) : M A :=
  match outcome body with
  | Raise TypeError => mkM (logged body ++ logged handler) (outcome handler)
  | _ => body
  end.

(** ** The authentication model

    The dict the base class hands to [check_allowed] and [update_auth_model]:
    [auth_model["name"]], [auth_model["admin"]] ([None], [True] or [False])
    and the userinfo document stored at
    [auth_model["auth_state"][self.user_auth_state_key]]. *)
Record auth_model : Type := mk_auth_model {
  name : pyval;
  admin : option bool;
  auth_state_user_info : pydict
}.

(** [auth_model["admin"] = b] *)
Definition set_admin (am : auth_model) (b : bool) : auth_model :=
  {| name := name am; admin := Some b;
     auth_state_user_info := auth_state_user_info am |}.

(** [bool(auth_model["admin"])] *)
Definition admin_truthy (am : auth_model) : bool :=
  match admin am with
  | Some b => b
  | None => false
  end.

(** ** cilogon.py *)

Module CILogon.

(** [allowed_idps[<entity id>]["username_derivation"]]: a dict whose keys
    are all optional as far as Python is concerned; the values are strings
    (the schema's types). *)
Record username_derivation_t : Type := mk_username_derivation {
  username_claim : option pystr;
  action : option pystr;
  domain : option pystr;
  prefix : option pystr
}.

(** [allowed_idps[<entity id>]] *)
Record idp_config : Type := mk_idp_config {
  username_derivation : option username_derivation_t;
  allowed_domains : option (list pystr)
}.

(** [bool(idp_config)]: a dict is true when it has a key. *)
Definition idp_config_truthy (c : idp_config) : bool :=
  match username_derivation c, allowed_domains c with
  | None, None => false
  | _, _ => true
  end.

(** The [allowed_idps] trait is a dict from entity ids to provider
    configurations, kept in insertion order as [items()] yields it; a key is
    looked up by its first binding. *)
Abbreviation registry := (list (pystr * idp_config)).

Fixpoint assoc (idps : registry) (k : pystr) : option idp_config :=
  match idps with
  | [] => None
  | (k', c) :: rest => if bool_decide (k' = k) then Some c else assoc rest k
  end.

(** The traits of [CILogonOAuthenticator] that the methods read, and the
    method inherited from [OAuthenticator] that [check_allowed] calls. *)
Record authenticator : Type := mk_authenticator {
  allowed_idps : registry;
  super_check_allowed : pyval -> auth_model -> bool
}.

(** [self.allowed_idps.get(key)]: hashing a list or a dict raises; a key that
    is no string equals none of the entity ids. *)
Definition allowed_idps_get (self : authenticator) (key : pyval)
  : M (option idp_config) :=
  match key with
  | PStr s => ret (assoc (allowed_idps self) s)
  | PList _ | PDict _ => raise TypeError
  | _ => ret None
  end.

(** [self.allowed_idps[key]] *)
Definition allowed_idps_item (self : authenticator) (key : pyval)
  : M idp_config :=
  o ← allowed_idps_get self key; item o.

(** Modelled from the spec: [schemas/cilogon-schema.yaml], the JSON schema
    that [_validate_allowed_idps] loads, is not among the sources. The claim
    is always required, the action is one of the known ones, [domain] is
    required with [strip_idp_domain] and [prefix] with [prefix]. *)
Definition cilogon_schema (c : idp_config) : bool :=
  match username_derivation c with
  | None => false
  | Some ud =>
      match username_claim ud with
      | None => false
      | Some _ =>
          match action ud with
          | None => true
          | Some a =>
              if bool_decide (a = "strip_idp_domain")
              then bool_decide (is_Some (domain ud))
              else if bool_decide (a = "prefix")
              then bool_decide (is_Some (prefix ud))
              else false
          end
      end
  end.

Section Methods.
Context `{Library}.

Definition accepted_entity_id_scheme : list pystr := ["urn"; "https"; "http"].

(** An item that passes both checks of the loop of
    [_validate_allowed_idps]: the schema accepts its configuration, and
    [urlparse] returns for its entity id, with an accepted scheme. *)
Definition idp_accepted (schema : idp_config -> bool)
    (item : pystr * idp_config) : Prop :=
  schema item.2 = true
  /\ exists entity_id_scheme : pystr,
       urlparse_scheme item.1 = Ok entity_id_scheme
       /\ entity_id_scheme ∈ accepted_entity_id_scheme.

(** The body of the loop of [_validate_allowed_idps] for one item. [schema]
    stands for [jsonschema.validate(idp_config, schema)] not raising. *)
Definition validate_idp (schema : idp_config -> bool)
    (entity_id : pystr) (c : idp_config) : M unit :=
  (if schema c then ret tt else raise ValidationError);;
  entity_id_scheme ← call (urlparse_scheme entity_id);
  if bool_decide (entity_id_scheme ∈ accepted_entity_id_scheme) then ret tt
  else
    log ERROR (MsgNotAnEntityId entity_id);;
    raise (ValueError MsgKeysMustBeEntityIds).

(** [for entity_id, idp_config in idps.items(): ...] *)
Fixpoint validate_idps (schema : idp_config -> bool) (items : registry)
  : M unit :=
  match items with
  | [] => ret tt
  | (entity_id, c) :: rest =>
      validate_idp schema entity_id c;; validate_idps schema rest
  end.

Definition _validate_allowed_idps (schema : idp_config -> bool)
    (idps : registry) : M registry :=
  match idps with
  | [] => raise (ValueError MsgNoAllowedIdps)
  | _ => validate_idps schema idps;; ret idps
  end.

Definition _user_info_to_unprocessed_username (self : authenticator)
    (user_info : pydict) : M pyval :=
  user_idp ← item (user_info !! "idp");
  cfg ← allowed_idps_item self user_idp;
  ud ← item (username_derivation cfg);
  claim ← item (username_claim ud);
  let username := default PNone (user_info !! claim) in
  if negb (truthy username) then
    let message := MsgUsernameClaimNotFound claim user_idp (dom user_info) in
    log ERROR message;;
    raise (HTTPError 500 message)
  else ret username.

Definition _get_processed_username (self : authenticator)
    (username : pyval) (user_info : pydict) : M pyval :=
  user_idp ← item (user_info !! "idp");
  cfg ← allowed_idps_item self user_idp;
  ud ← item (username_derivation cfg);
  let act := action ud in
  if bool_decide (act = Some "strip_idp_domain") then
    d ← item (domain ud);
    let domain_suffix := "@" ++ d in
    match username with
    | PStr u =>
        if PyStr.endswith (py_lower u) (py_lower domain_suffix)
        then ret (PStr (PyStr.slice_to_neg u (length domain_suffix)))
        else ret username
    | _ => raise AttributeError
    end
  else if bool_decide (act = Some "prefix") then
    p ← item (prefix ud);
    ret (PStr (p ++ ":" ++ py_str username))
  else ret username.

Definition user_info_to_username (self : authenticator)
    (user_info : pydict) : M pyval :=
  let user_idp := default PNone (user_info !! "idp") in
  if negb (truthy user_idp) then
    log ERROR MsgIdpClaimMissing;;
    raise (HTTPError 500 MsgIdpClaimMissing)
  else
    cfg ← allowed_idps_get self user_idp;
    if negb (from_option idp_config_truthy false cfg) then
      log ERROR (MsgIdpNotConfigured user_idp);;
      raise (HTTPError 500 (MsgIdpNotConfigured user_idp))
    else
      unprocessed_username ← _user_info_to_unprocessed_username self user_info;
      _get_processed_username self unprocessed_username user_info.

(** [unprocessed_username.split("@", 1)[1].lower()] *)
Definition user_domain_of (unprocessed_username : pyval) : M pystr :=
  match unprocessed_username with
  | PStr u =>
      match PyStr.split1 (PyStr.ord "@") u !! 1%nat with
      | Some d => ret (py_lower d)
      | None => raise IndexError
      end
  | _ => raise AttributeError
  end.

Definition check_allowed (self : authenticator) (username : pyval)
    (am : auth_model) : M bool :=
  if super_check_allowed self username am then ret true
  else
    let user_info := auth_state_user_info am in
    user_idp ← item (user_info !! "idp");
    cfg ← allowed_idps_item self user_idp;
    let idp_allowed_domains := allowed_domains cfg in
    match idp_allowed_domains with
    | Some ((_ :: _) as domains) =>
        unprocessed_username ← _user_info_to_unprocessed_username self user_info;
        user_domain ← user_domain_of unprocessed_username;
        if bool_decide (user_domain ∈ domains) then ret true
        else
          let message := MsgDomainNotAllowed user_domain in
          log WARNING message;;
          raise (HTTPError 403 message)
    | _ => ret false
    end.

End Methods.

End CILogon.

(** ** generic.py *)

Module Generic.

(** A trait that is either a string key or a callable taking the userinfo
    dict ([Union([Unicode(...), Callable()])]). *)
Inductive claim_key : Type :=
| Key (k : pystr)
| Callable (f : pydict -> M pyval).

(** A Python [set], by the list of its members. Only membership is read
    from it. *)
Abbreviation pyset := (list pyval).

(** The traits of [GenericOAuthenticator] that the methods read, and the
    method inherited from [OAuthenticator] that [check_allowed] calls. *)
Record authenticator : Type := mk_authenticator {
  username_claim : claim_key;
  claim_groups_key : claim_key;
  allowed_groups : gset pystr;
  admin_groups : gset pystr;
  super_check_allowed : pyval -> auth_model -> bool
}.

Definition user_info_to_username (self : authenticator)
    (user_info : pydict) : M pyval :=
  match username_claim self with
  | Callable f => f user_info
  | Key k =>
      let username := default PNone (user_info !! k) in
      if negb (truthy username) then
        let message := MsgNoUsernameFound k user_info in
        log ERROR message;;
        raise (ValueError message)
      else ret username
  end.

(** [dict.get(d, k)]: the unbound method called on something that is no dict
    raises [TypeError]; an absent key gives [None]. *)
Definition dict_get (d : pyval) (k : pystr) : M pyval :=
  match d with
  | PDict m => ret (default PNone (m !! k))
  | _ => raise TypeError
  end.

(** [reduce(dict.get, keys, initial)] *)
Fixpoint reduce_dict_get (keys : list pystr) (acc : pyval) : M pyval :=
  match keys with
  | [] => ret acc
  | k :: rest => v ← dict_get acc k; reduce_dict_get rest v
  end.

(** [set(v)]: the characters of a string, the items of a list when all can
    be hashed, the keys of a dict; anything else cannot be iterated. *)
Definition py_set (v : pyval) : M pyset :=
  match v with
  | PStr s => ret (PStr <$> PyStr.chars s)
  | PList l => if forallb hashable l then ret l else raise TypeError
  | PDict d => ret (PStr <$> elements (dom d))
  | _ => raise TypeError
  end.

(** The body of the [try] of [get_user_groups]:
    [set(reduce(dict.get, self.claim_groups_key.split("."), user_info))] *)
Definition groups_at_path (key : pystr) (user_info : pydict) : M pyset :=
  v ← reduce_dict_get (PyStr.split (PyStr.ord ".") key) (PDict user_info);
  py_set v.

Definition get_user_groups (self : authenticator) (user_info : pydict)
  : M pyset :=
  match claim_groups_key self with
  | Callable f => v ← f user_info; py_set v
  | Key k =>
      except_TypeError (groups_at_path k user_info)
        (log ERROR (MsgGroupsKeyNotFound k);; ret [])
  end.

(** The strings among the members of a set. *)
Definition str_members (s : pyset) : gset pystr :=
  list_to_set (omap (fun v => match v with PStr g => Some g | _ => None end) s).

(** [user_groups & groups] for a set of strings [groups]: only a string can
    equal a string, so the result is a set of strings. *)
Definition set_and (user_groups : pyset) (groups : gset pystr) : gset pystr :=
  str_members user_groups ∩ groups.

(** [any(s)] over a set of strings: some member is true, that is, not the
    empty string. *)
Definition py_any (s : gset pystr) : bool :=
  bool_decide (set_Exists (fun g => g ≠ "") s).

(** [bool(s)] for a set *)
Definition set_truthy (s : gset pystr) : bool :=
  negb (bool_decide (s = ∅)).

Definition update_auth_model (self : authenticator) (am : auth_model)
  : M auth_model :=
  if admin_truthy am then ret am
  else if set_truthy (admin_groups self) then
    let user_info := auth_state_user_info am in
    user_groups ← get_user_groups self user_info;
    ret (set_admin am (py_any (set_and user_groups (admin_groups self))))
  else ret am.

Definition check_allowed (self : authenticator) (username : pyval)
    (am : auth_model) : M bool :=
  if super_check_allowed self username am then ret true
  else if set_truthy (allowed_groups self) then
    let user_info := auth_state_user_info am in
    user_groups ← get_user_groups self user_info;
    if py_any (set_and user_groups (allowed_groups self)) then ret true
    else ret false
  else ret false.

End Generic.

(** ** Claim extraction as the specification words it

    [extract(document, path)]: descend nested mappings key by key; [None]
    (Missing) as soon as a level is not a mapping or the key is absent. *)
Fixpoint extract_path (keys : list pystr) (document : pyval) : option pyval :=
  match keys with
  | [] => Some document
  | k :: rest =>
      match document with
      | PDict m =>
          match m !! k with
          | Some v => extract_path rest v
          | None => None
          end
      | _ => None
      end
  end.


(** ** Sample configurations *)

Module Sample.

(** A library instance for running the definitions. *)

Definition of_string (s : string) : pystr :=
  N_of_ascii <$> list_ascii_of_string s.

(** [str(v)] of a string, of [None], of a boolean and of an integer; the
    text of a float, a list or a dict is left as a placeholder. *)
Definition sample_str (v : pyval) : pystr :=
  match v with
  | PStr s => s
  | PNone => "None"
  | PBool true => "True"
  | PBool false => "False"
  | PInt z => of_string (DecimalString.NilZero.string_of_int (Z.to_int z))
  | _ => "<object>"
  end.

(** [str.lower] on one code point below U+0100 or of the few others that
    the runs use: A-Z and the Latin-1 capitals (U+00C0..U+00DE without the
    multiplication sign U+00D7) move up by 32, and the capital I with dot
    above, U+0130, becomes two code points: i (U+0069) and the combining dot
    above (U+0307), which has no case. *)
Definition lower_char (c : N) : pystr :=
  (if ((65 <=? c) && (c <=? 90)) || ((192 <=? c) && (c <=? 222) && negb (c =? 215))
   then [c + 32]
   else if c =? 304 then [105; 775]
   else [c])%N.

Definition sample_lower (s : pystr) : pystr := s ≫= lower_char.

Definition is_alpha (c : N) : bool :=
  (((65 <=? c) && (c <=? 90)) || ((97 <=? c) && (c <=? 122)))%N.

(** The characters of a scheme: letters, digits, [+], [-] and [.]. *)
Definition is_scheme_char (c : N) : bool :=
  (is_alpha c || ((48 <=? c) && (c <=? 57))
   || (c =? 43) || (c =? 45) || (c =? 46))%N.

(** The network location: up to the first [/], [?] or [#]. *)
Fixpoint netloc_of (s : pystr) : pystr :=
  match s with
  | [] => []
  | c :: r =>
      if ((c =? 47) || (c =? 63) || (c =? 35))%N then [] else c :: netloc_of r
  end.

(** [urlparse(url).scheme] as [urllib.parse.urlsplit] computes it: the text
    before the first colon, in lower case, when it starts with a letter and
    holds only scheme characters, and the empty string otherwise;
    [ValueError("Invalid IPv6 URL")] when the network location after ["//"]
    holds one square bracket without the other. *)
Definition sample_scheme (url : pystr) : result pystr :=
  let '(scheme, rest) :=
    match PyStr.partition (PyStr.ord ":") url with
    | Some (c :: s, rest) =>
        if is_alpha c && forallb is_scheme_char s
        then (sample_lower (c :: s), rest)
        else ([], url)
    | _ => ([], url)
    end in
  if bool_decide (take 2 rest = "//") then
    let netloc := netloc_of (drop 2 rest) in
    let opening := PyStr.contains (PyStr.ord "[") netloc in
    let closing := PyStr.contains (PyStr.ord "]") netloc in
    if (opening && negb closing) || (closing && negb opening)
    then Raise (ValueError (MsgOfLibrary "Invalid IPv6 URL"))
    else Ok scheme
  else Ok scheme.

Definition sample_library : Library := {|
  py_str := sample_str;
  py_str_PStr := fun s => eq_refl;
  py_lower := sample_lower;
  urlparse_scheme := sample_scheme
|}.

(** The example of the [allowed_idps] help text. *)
Definition utoronto : pystr := "https://idpz.utorauth.utoronto.ca/shibboleth".
Definition github : pystr := "https://github.com/login/oauth/authorize".
Definition google : pystr := "http://google.com/accounts/o8/id".

Definition idps : CILogon.registry :=
  [ (utoronto,
     CILogon.mk_idp_config
       (Some (CILogon.mk_username_derivation
                (Some "email") (Some "strip_idp_domain") (Some "utoronto.ca") None))
       None);
    (github,
     CILogon.mk_idp_config
       (Some (CILogon.mk_username_derivation
                (Some "username") (Some "prefix") None (Some "gh")))
       None);
    (google,
     CILogon.mk_idp_config
       (Some (CILogon.mk_username_derivation (Some "username") None None None))
       (Some ["uni.edu"; "something.org"])) ].

(** No user is on the base class's allow list. *)
Definition cilogon : CILogon.authenticator :=
  CILogon.mk_authenticator idps (fun _ _ => false).

Definition doc (l : list (pystr * pyval)) : pydict := list_to_map l.

Definition generic (groups_key : pystr) (allowed admins : list pystr)
  : Generic.authenticator :=
  Generic.mk_authenticator (Generic.Key "username") (Generic.Key groups_key)
    (list_to_set allowed) (list_to_set admins) (fun _ _ => false).

(** [username_claim = lambda user_info: user_info.get("preferred_username")] *)
Definition generic_callable : Generic.authenticator :=
  Generic.mk_authenticator
    (Generic.Callable
       (fun user_info => ret (default PNone (user_info !! "preferred_username"))))
    (Generic.Key "groups") ∅ ∅ (fun _ _ => false).

(** A provider whose allowed domain is written with a capital letter. *)
Definition capital_idps : CILogon.registry :=
  [ (google,
     CILogon.mk_idp_config
       (Some (CILogon.mk_username_derivation (Some "email") None None None))
       (Some ["Uni.edu"])) ].

Definition capital_cilogon : CILogon.authenticator :=
  CILogon.mk_authenticator capital_idps (fun _ _ => false).




(** The authentication model of a user who is no admin yet. *)
Definition model (username : pystr) (user_info : list (pystr * pyval))
  : auth_model :=
  mk_auth_model (PStr username) None (doc user_info).

End Sample.

(** ** cilogon.py: the scope trait and the login handler *)

(** [sep.join(items)] *)
Fixpoint str_join (sep : pystr) (items : list pystr) : pystr :=
  match items with
  | [] => ""
  | [x] => x
  | x :: rest => x ++ sep ++ str_join sep rest
  end.

Module CILogonLogin.

(** [CILogonOAuthenticator._validate_scope], on [proposal.value]. [scopes]
    and [proposal.value] name one list, which [+=] extends in place: the
    second test reads the list as the first statement left it. *)
Definition _validate_scope (value : list pystr) : list pystr :=
  let scopes := value in
  let scopes :=
    if bool_decide ("openid" ∉ scopes)
    then scopes ++ ["openid"] else scopes in
  let scopes :=
    if bool_decide ("org.cilogon.userinfo" ∉ scopes)
    then scopes ++ ["org.cilogon.userinfo"] else scopes in
  scopes.

(** What [CILogonLoginHandler.authorize_redirect] reads of its
    authenticator: the [allowed_idps] and [skin] traits. *)
Record handler : Type := mk_handler {
  authenticator : CILogon.authenticator;
  skin : pystr
}.

(** [CILogonLoginHandler.authorize_redirect]: the keyword arguments it hands
    to [super().authorize_redirect]. [extra_params] is the dict stored in
    [kwargs], so assigning to it changes [kwargs["extra_params"]]; assigning
    an item to something that is no dict raises [TypeError]. *)
Definition authorize_redirect (self : handler) (kwargs : pydict) : M pydict :=
  (* extra_params = kwargs.setdefault('extra_params', {}) *)
  let kwargs :=
    match kwargs !! "extra_params" with
    | Some _ => kwargs
    | None => <["extra_params" := PDict ∅]> kwargs
    end in
  let allowed_idps :=
    str_join "," (CILogon.allowed_idps (authenticator self)).*1 in
  match kwargs !! "extra_params" with
  | Some (PDict extra_params) =>
      let extra_params := <["selected_idp" := PStr allowed_idps]> extra_params in
      let extra_params :=
        if truthy (PStr (skin self))
        then <["skin" := PStr (skin self)]> extra_params
        else extra_params in
      ret (<["extra_params" := PDict extra_params]> kwargs)
  | _ => raise TypeError
  end.

End CILogonLogin.

(** The login handler of the sample CILogon configuration, without a skin and
    with one. *)
Module SampleLogin.

Definition plain : CILogonLogin.handler :=
  CILogonLogin.mk_handler Sample.cilogon "".

Definition skinned : CILogonLogin.handler :=
  CILogonLogin.mk_handler Sample.cilogon "LIGO".

(** A provider whose username is the numeric [uid] claim, with its domain
    stripped. *)
Definition numeric_idps : CILogon.registry :=
  [ (Sample.utoronto,
     CILogon.mk_idp_config
       (Some (CILogon.mk_username_derivation
                (Some "uid") (Some "strip_idp_domain") (Some "utoronto.ca") None))
       None) ].

Definition numeric_cilogon : CILogon.authenticator :=
  CILogon.mk_authenticator numeric_idps (fun _ _ => false).

(** A generic authenticator that allows the ["staff"] group and whose admins
    are the ["ops"] group. *)
Definition staff_ops : Generic.authenticator :=
  Sample.generic "groups" ["staff"] ["ops"].

End SampleLogin.

(** * Properties *)

(** ** Strings *)

Section StringFacts.
Import PyStr.

(** [endswith] finds exactly the suffixes. *)
Lemma endswith_spec s t : endswith s t = true <-> exists p, s = p ++ t.
Proof. unfold endswith. by rewrite bool_decide_eq_true. Qed.





(** [partition] cuts at the first separator. *)
Lemma partition_app sep a b :
  contains sep a = false -> partition sep (a ++ sep :: b) = Some (a, b).
Proof.
  induction a as [|c r IH]; intros Hno; simpl in *.
  - by rewrite N.eqb_refl.
  - apply orb_false_iff in Hno as [-> Hno]. by rewrite (IH Hno).
Qed.

End StringFacts.

(** ** The monad *)

Section MonadFacts.
Context {A B : Type}.

Lemma bind_ret (a : A) (k : A -> M B) : (ret a ≫= k) = k a.
Proof. unfold mbind, M_bind, bind. simpl. by destruct (k a). Qed.

Lemma bind_item_Some (a : A) (k : A -> M B) : (item (Some a) ≫= k) = k a.
Proof. apply bind_ret. Qed.

Lemma bind_call_Ok (a : A) (k : A -> M B) : (call (Ok a) ≫= k) = k a.
Proof. apply bind_ret. Qed.

Lemma bind_call_Raise (e : exn) (k : A -> M B) :
  (call (Raise e) ≫= k) = raise e.
Proof. done. Qed.

Lemma outcome_bind (m : M A) (k : A -> M B) :
  outcome (m ≫= k) =
  match outcome m with
  | Ok a => outcome (k a)
  | Raise e => Raise e
  end.
Proof. unfold mbind, M_bind, bind. by destruct (outcome m). Qed.

End MonadFacts.

(** Both username methods of cilogon.py start by looking the provider of the
    document up and taking its [username_derivation]: this runs the three
    statements, given the three lookups. *)
Ltac find_username_derivation Hidp Hcfg Hud :=
  rewrite Hidp, bind_item_Some;
  unfold CILogon.allowed_idps_item, CILogon.allowed_idps_get;
  rewrite Hcfg, bind_ret, bind_item_Some, Hud, bind_item_Some.

(** ** Username derivation (cilogon.py) *)

Section UsernameDerivation.
Import CILogon.
Context `{Library}.

Section ConfiguredProvider.
Variables (self : authenticator) (user_info : pydict).
Variables (idp : pystr) (cfg : idp_config) (ud : username_derivation_t).
Hypothesis user_idp_is_idp : user_info !! "idp" = Some (PStr idp).
Hypothesis idp_is_allowed : assoc (allowed_idps self) idp = Some cfg.
Hypothesis idp_derivation : username_derivation cfg = Some ud.



Lemma processed_username_strip_no_str (d : pystr) (username : pyval) :
  action ud = Some "strip_idp_domain" ->
  domain ud = Some d ->
  (forall s : pystr, username <> PStr s) ->
  _get_processed_username self username user_info = raise AttributeError.
Proof.
  intros Hact Hdom Hnostr. unfold _get_processed_username.
  find_username_derivation user_idp_is_idp idp_is_allowed idp_derivation.
  rewrite bool_decide_eq_true_2 by done.
  rewrite Hdom, bind_item_Some.
  destruct username as [| | | |s| |]; try done. by destruct (Hnostr s).
Qed.

Lemma processed_username_prefix (p : pystr) (username : pyval) :
  action ud = Some "prefix" ->
  prefix ud = Some p ->
  _get_processed_username self username user_info =
  ret (PStr (p ++ ":" ++ py_str username)).
Proof.
  intros Hact Hpre. unfold _get_processed_username.
  find_username_derivation user_idp_is_idp idp_is_allowed idp_derivation.
  rewrite bool_decide_eq_false_2 by (rewrite Hact; discriminate).
  rewrite bool_decide_eq_true_2 by done.
  by rewrite Hpre, bind_item_Some.
Qed.


End ConfiguredProvider.

(** C5. A userinfo document that has no [idp] claim, or whose [idp] claim
    names a provider that is not a key of [allowed_idps], makes
    [user_info_to_username] log an error and raise [HTTPError(500, ...)]: no
    username comes out. *)
Theorem unknown_provider_aborts_with_500
    (self : authenticator) (user_info : pydict) :
  user_info !! "idp" = None
  \/ (exists s : pystr,
        user_info !! "idp" = Some (PStr s) /\ assoc (allowed_idps self) s = None) ->
  exists m : message,
    user_info_to_username self user_info
    = mkM [(ERROR, m)] (Raise (HTTPError 500 m))
    /\ (m = MsgIdpClaimMissing
        \/ exists s, user_info !! "idp" = Some (PStr s) /\ m = MsgIdpNotConfigured (PStr s)).
Proof.
  unfold user_info_to_username. intros [Hnone | (s & Hs & Hreg)].
  - rewrite Hnone. simpl. exists MsgIdpClaimMissing. split; [done|by left].
  - rewrite Hs. change (default PNone (Some (PStr s))) with (PStr s).
    unfold truthy. destruct s as [|c s]; simpl negb; cbv iota.
    + exists MsgIdpClaimMissing. split; [done|by left].
    + unfold allowed_idps_get. rewrite Hreg, bind_ret. simpl.
      exists (MsgIdpNotConfigured (PStr (c :: s))). split; [done|].
      right. by exists (c :: s).
Qed.

(** X5. Whenever a username comes out, the [idp] claim is a string that is a
    key of [allowed_idps]. *)
Lemma username_implies_allowed_idp
    (self : authenticator) (user_info : pydict) (username : pyval) :
  outcome (user_info_to_username self user_info) = Ok username ->
  exists (s : pystr) (cfg : idp_config),
    user_info !! "idp" = Some (PStr s) /\ assoc (allowed_idps self) s = Some cfg.
Proof.
  unfold user_info_to_username.
  destruct (user_info !! "idp") as [v|]; [|done].
  change (default PNone (Some v)) with v.
  destruct (truthy v) eqn:Htruthy; [|done]. cbv [negb].
  destruct v as [| | | |s| |]; try done;
    try (unfold allowed_idps_get; rewrite bind_ret; done).
  unfold allowed_idps_get. rewrite bind_ret.
  destruct (assoc (allowed_idps self) s) as [cfg|] eqn:Hreg; [|done].
  intros _. by exists s, cfg.
Qed.

End UsernameDerivation.


(** ** The username claim and the domain check (cilogon.py) *)

Section UnprocessedUsername.
Import CILogon.
Context `{Library}.
Variables (self : authenticator) (user_info : pydict).
Variables (idp : pystr) (cfg : idp_config) (ud : username_derivation_t).
Variable claim : pystr.
Hypothesis user_idp_is_idp : user_info !! "idp" = Some (PStr idp).
Hypothesis idp_is_allowed : assoc (allowed_idps self) idp = Some cfg.
Hypothesis idp_derivation : username_derivation cfg = Some ud.
Hypothesis idp_claim : username_claim ud = Some claim.

Lemma unprocessed_username_eq :
  _user_info_to_unprocessed_username self user_info =
  let username := default PNone (user_info !! claim) in
  if truthy username then ret username
  else mkM [(ERROR, MsgUsernameClaimNotFound claim (PStr idp) (dom user_info))]
           (Raise (HTTPError 500
                     (MsgUsernameClaimNotFound claim (PStr idp) (dom user_info)))).
Proof.
  unfold _user_info_to_unprocessed_username.
  find_username_derivation user_idp_is_idp idp_is_allowed idp_derivation.
  rewrite idp_claim, bind_item_Some. cbv zeta.
  by destruct (truthy _).
Qed.

(** The configured claim, when absent or empty, is a server error and never
    a username. *)
Lemma unprocessed_username_missing :
  truthy (default PNone (user_info !! claim)) = false ->
  exists m, _user_info_to_unprocessed_username self user_info
            = mkM [(ERROR, m)] (Raise (HTTPError 500 m)).
Proof.
  intros Hfalsy. rewrite unprocessed_username_eq. cbv zeta. rewrite Hfalsy.
  eauto.
Qed.

Lemma unprocessed_username_truthy (u : pyval) :
  outcome (_user_info_to_unprocessed_username self user_info) = Ok u ->
  truthy u = true.
Proof.
  rewrite unprocessed_username_eq. cbv zeta.
  destruct (truthy _) eqn:Htruthy; simpl; [|done]. by intros [= <-].
Qed.

Section DomainCheck.
Variables (username : pyval) (am : auth_model).
Variables (domains : list pystr) (raw : pystr).
Hypothesis not_allowed_by_base : super_check_allowed self username am = false.
Hypothesis am_user_info : auth_state_user_info am = user_info.
Hypothesis idp_domains : allowed_domains cfg = Some domains.
Hypothesis domains_nonempty : domains <> [].
Hypothesis raw_username : user_info !! claim = Some (PStr raw).
Hypothesis raw_nonempty : raw <> "".

Lemma check_allowed_domains_eq :
  check_allowed self username am =
  (user_domain ← user_domain_of (PStr raw);
   if bool_decide (user_domain ∈ domains) then ret true
   else mkM [(WARNING, MsgDomainNotAllowed user_domain)]
            (Raise (HTTPError 403 (MsgDomainNotAllowed user_domain)))).
Proof.
  unfold check_allowed.
  rewrite not_allowed_by_base, am_user_info, user_idp_is_idp, bind_item_Some.
  unfold allowed_idps_item, allowed_idps_get.
  rewrite idp_is_allowed, bind_ret, bind_item_Some, idp_domains.
  destruct domains as [|d ds]; [done|].
  rewrite unprocessed_username_eq, raw_username. cbv zeta.
  change (default PNone (Some (PStr raw))) with (PStr raw).
  assert (truthy (PStr raw) = true) as ->.
  { simpl. by destruct raw. }
  by rewrite bind_ret.
Qed.


(** The domain check on a username [local@dom]: the lower-cased [dom] is
    looked up among the configured domains as they are written. *)
Lemma check_allowed_with_at (local dom : pystr) :
  raw = local ++ "@" ++ dom ->
  PyStr.contains (PyStr.ord "@") local = false ->
  check_allowed self username am =
  if bool_decide (py_lower dom ∈ domains) then ret true
  else mkM [(WARNING, MsgDomainNotAllowed (py_lower dom))]
           (Raise (HTTPError 403 (MsgDomainNotAllowed (py_lower dom)))).
Proof.
  intros Hraw Hlocal. rewrite check_allowed_domains_eq.
  unfold user_domain_of, PyStr.split1.
  rewrite Hraw. change ("@" ++ dom) with (PyStr.ord "@" :: dom).
  rewrite (partition_app _ _ _ Hlocal). simpl lookup. cbv iota.
  by rewrite bind_ret.
Qed.

(** X7. When the configured domains are written in lower case, the check is
    the comparison ignoring case of the part after the first ["@"]: a match
    allows, anything else is refused with [HTTPError(403, ...)]. *)
Lemma check_allowed_lowercase_domains (local dom : pystr) :
  Forall (fun d => py_lower d = d) domains ->
  raw = local ++ "@" ++ dom ->
  PyStr.contains (PyStr.ord "@") local = false ->
  ((exists d, d ∈ domains /\ py_lower d = py_lower dom) ->
   check_allowed self username am = ret true)
  /\ (~ (exists d, d ∈ domains /\ py_lower d = py_lower dom) ->
      check_allowed self username am =
      mkM [(WARNING, MsgDomainNotAllowed (py_lower dom))]
          (Raise (HTTPError 403 (MsgDomainNotAllowed (py_lower dom))))).
Proof.
  intros Hlower Hraw Hlocal. rewrite (check_allowed_with_at local dom Hraw Hlocal).
  rewrite Forall_forall in Hlower.
  split; intros Hmatch.
  - rewrite bool_decide_eq_true_2; [done|].
    destruct Hmatch as (d & Hd & Heq). rewrite <- Heq, (Hlower d Hd). done.
  - rewrite bool_decide_eq_false_2; [done|].
    intros Hin. apply Hmatch. exists (py_lower dom). split; [done|].
    by apply Hlower.
Qed.

End DomainCheck.
End UnprocessedUsername.

(** ** The username claim (generic.py) *)

Section GenericUsername.
Import Generic.
Variables (self : authenticator) (user_info : pydict).

(** With a string [username_claim], an absent or empty claim is an error. *)
Lemma username_key_missing (k : pystr) :
  username_claim self = Key k ->
  truthy (default PNone (user_info !! k)) = false ->
  user_info_to_username self user_info
  = mkM [(ERROR, MsgNoUsernameFound k user_info)]
        (Raise (ValueError (MsgNoUsernameFound k user_info))).
Proof.
  intros Hkey Hfalsy. unfold user_info_to_username. by rewrite Hkey, Hfalsy.
Qed.

(** With a callable [username_claim], what the callable returns is the
    username, whatever it is. *)
Lemma username_callable (f : pydict -> M pyval) :
  username_claim self = Callable f ->
  user_info_to_username self user_info = f user_info.
Proof. intros Hcall. unfold user_info_to_username. by rewrite Hcall. Qed.

End GenericUsername.

(** ** Group membership (generic.py) *)

Section Groups.
Import Generic.

Lemma reduce_dict_get_PNone (keys : list pystr) :
  reduce_dict_get keys PNone = ret PNone
  \/ reduce_dict_get keys PNone = raise TypeError.
Proof. destruct keys; [by left | by right]. Qed.

(** Where the path leads to a value, [reduce(dict.get, ...)] returns it. *)
Lemma reduce_dict_get_found (keys : list pystr) (document v : pyval) :
  extract_path keys document = Some v -> reduce_dict_get keys document = ret v.
Proof.
  revert document; induction keys as [|k rest IH]; intros document; simpl.
  - by intros [= ->].
  - destruct document as [| | | | | |m]; try done.
    destruct (m !! k) as [w|] eqn:Hk; [|done].
    intros Hrest. unfold dict_get. rewrite Hk, bind_ret. by apply IH.
Qed.

(** Where it does not, [reduce(dict.get, ...)] either returns [None] (the
    last key is absent) or raises [TypeError] ([dict.get] was applied to
    something that is no dict, possibly the [None] of an absent key). *)
Lemma reduce_dict_get_missing (keys : list pystr) (document : pyval) :
  extract_path keys document = None ->
  reduce_dict_get keys document = ret PNone
  \/ reduce_dict_get keys document = raise TypeError.
Proof.
  revert document; induction keys as [|k rest IH]; intros document; simpl.
  - done.
  - destruct document as [| | | | | |m]; try (by right).
    unfold dict_get. rewrite bind_ret.
    destruct (m !! k) as [w|] eqn:Hk; simpl.
    + apply IH.
    + intros _. apply reduce_dict_get_PNone.
Qed.

Lemma groups_at_path_found (key : pystr) (user_info : pydict) (v : pyval) :
  extract_path (PyStr.split (PyStr.ord ".") key) (PDict user_info) = Some v ->
  groups_at_path key user_info = py_set v.
Proof.
  intros Hfound. unfold groups_at_path.
  by rewrite (reduce_dict_get_found _ _ _ Hfound), bind_ret.
Qed.

Lemma groups_at_path_missing (key : pystr) (user_info : pydict) :
  extract_path (PyStr.split (PyStr.ord ".") key) (PDict user_info) = None ->
  groups_at_path key user_info = raise TypeError.
Proof.
  intros Hmissing. unfold groups_at_path.
  destruct (reduce_dict_get_missing _ _ Hmissing) as [-> | ->].
  - by rewrite bind_ret.
  - done.
Qed.

(** C9. For a dotted [claim_groups_key], [get_user_groups] descends the
    nested mappings of the document key by key. When every level is a
    mapping that holds its key, [reduce(dict.get, ...)] returns the value [v]
    at the end of the path, the extraction is [set(v)], and [get_user_groups]
    returns that set with nothing logged; a [v] of which [set] raises
    [TypeError] is reported like a missing key. When a level is no mapping or
    a key is absent, [reduce(dict.get, ...)] returns [None] or raises
    [TypeError], the extraction raises [TypeError], and [get_user_groups]
    raises nothing: it logs one error naming the key and returns the empty
    set. *)
Theorem groups_claim_is_found_or_reported
    (self : authenticator) (key : pystr) (user_info : pydict) :
  claim_groups_key self = Key key ->
  (forall v : pyval,
      extract_path (PyStr.split (PyStr.ord ".") key) (PDict user_info) = Some v ->
      reduce_dict_get (PyStr.split (PyStr.ord ".") key) (PDict user_info) = ret v
      /\ groups_at_path key user_info = py_set v
      /\ (forall groups : pyset,
            py_set v = ret groups -> get_user_groups self user_info = ret groups)
      /\ (py_set v = raise TypeError ->
          get_user_groups self user_info
          = mkM [(ERROR, MsgGroupsKeyNotFound key)] (Ok [])))
  /\ (extract_path (PyStr.split (PyStr.ord ".") key) (PDict user_info) = None ->
      (reduce_dict_get (PyStr.split (PyStr.ord ".") key) (PDict user_info)
       = ret PNone
       \/ reduce_dict_get (PyStr.split (PyStr.ord ".") key) (PDict user_info)
          = raise TypeError)
      /\ groups_at_path key user_info = raise TypeError
      /\ get_user_groups self user_info
         = mkM [(ERROR, MsgGroupsKeyNotFound key)] (Ok [])).
Proof.
  intros Hkey. split.
  - intros v Hfound.
    pose proof (groups_at_path_found key user_info v Hfound) as Hbody.
    split; [by apply reduce_dict_get_found|]. split; [done|].
    unfold get_user_groups. rewrite Hkey, Hbody.
    split; [by intros groups ->|by intros ->].
  - intros Hmissing.
    pose proof (groups_at_path_missing key user_info Hmissing) as Hbody.
    split; [by apply reduce_dict_get_missing|]. split; [done|].
    unfold get_user_groups. by rewrite Hkey, Hbody.
Qed.

Lemma str_members_strings (l : list pystr) :
  str_members (PStr <$> l) = list_to_set l.
Proof.
  unfold str_members. f_equal.
  induction l as [|g l IH]; [done|].
  rewrite fmap_cons. cbn [omap list_omap]. f_equal. apply IH.
Qed.

Lemma elem_of_chars (g : pystr) (s : pystr) :
  g ∈ PyStr.chars s <->
  exists c : N, g = [c] /\ PyStr.contains c s = true.
Proof.
  induction s as [|c' r IH]; simpl.
  - split; [by intros ?%elem_of_nil | by intros (? & _ & ?)].
  - rewrite elem_of_cons, IH. split.
    + intros [-> | (c & -> & Hc)].
      * exists c'. by rewrite N.eqb_refl.
      * exists c. by rewrite Hc, orb_true_r.
    + intros (c & -> & Hc). apply orb_true_iff in Hc as [Hc | Hc].
      * left. apply N.eqb_eq in Hc. by subst.
      * right. by exists c.
Qed.

Lemma py_any_true (s : gset pystr) :
  py_any s = true <-> exists g, g ∈ s /\ g <> "".
Proof. unfold py_any. by rewrite bool_decide_eq_true. Qed.

Lemma set_truthy_elem (g : pystr) (s : gset pystr) :
  g ∈ s -> set_truthy s = true.
Proof.
  intros Hg. unfold set_truthy. rewrite bool_decide_eq_false_2; [done|].
  set_solver.
Qed.

Section Decisions.
Variables (self : authenticator) (am : auth_model).
Variables (user_groups : pyset).
Hypothesis groups_computed :
  get_user_groups self (auth_state_user_info am) = ret user_groups.

Lemma check_allowed_by_group (username : pyval) (g : pystr) :
  g ∈ set_and user_groups (allowed_groups self) -> g <> "" ->
  check_allowed self username am = ret true.
Proof.
  intros Hg Hne. unfold check_allowed.
  destruct (super_check_allowed self username am); [done|].
  assert (g ∈ allowed_groups self) as Hconf
    by (unfold set_and in Hg; by apply elem_of_intersection in Hg as [_ ?]).
  rewrite (set_truthy_elem g _ Hconf), groups_computed, bind_ret.
  by rewrite (proj2 (py_any_true _)) by eauto.
Qed.

Lemma update_auth_model_by_group (g : pystr) :
  g ∈ set_and user_groups (admin_groups self) -> g <> "" ->
  exists am', update_auth_model self am = ret am' /\ admin am' = Some true.
Proof.
  intros Hg Hne. unfold update_auth_model.
  destruct (admin_truthy am) eqn:Hadmin.
  - exists am. split; [done|]. unfold admin_truthy in Hadmin.
    by destruct (admin am) as [[]|].
  - assert (g ∈ admin_groups self) as Hconf
      by (unfold set_and in Hg; by apply elem_of_intersection in Hg as [_ ?]).
    rewrite (set_truthy_elem g _ Hconf), groups_computed, bind_ret.
    rewrite (proj2 (py_any_true _)) by eauto.
    by exists (set_admin am true).
Qed.

End Decisions.

(** C10. When the value at the dotted [claim_groups_key] is a string,
    [get_user_groups] returns the set of its characters (as one-character
    strings), neither the string as one group nor an error. A one-character
    entry of [allowed_groups] or [admin_groups] that occurs in the string
    therefore allows the user, respectively makes the user an admin. *)
Theorem string_groups_claim_is_split_into_characters
    (self : authenticator) (key : pystr) (user_info : pydict) (s : pystr) :
  claim_groups_key self = Key key ->
  extract_path (PyStr.split (PyStr.ord ".") key) (PDict user_info)
  = Some (PStr s) ->
  get_user_groups self user_info = ret (PStr <$> PyStr.chars s)
  /\ (forall g : pystr,
        g ∈ str_members (PStr <$> PyStr.chars s) <->
        exists c : N, g = [c] /\ PyStr.contains c s = true)
  /\ (forall (c : N) (am : auth_model),
        PyStr.contains c s = true ->
        auth_state_user_info am = user_info ->
        ([c] ∈ allowed_groups self ->
         forall username, check_allowed self username am = ret true)
        /\ ([c] ∈ admin_groups self ->
            exists am', update_auth_model self am = ret am'
                        /\ admin am' = Some true)).
Proof.
  intros Hkey Hfound.
  assert (get_user_groups self user_info = ret (PStr <$> PyStr.chars s)) as Hgroups.
  { unfold get_user_groups.
    by rewrite Hkey, (groups_at_path_found _ _ _ Hfound). }
  assert (forall g : pystr,
            g ∈ str_members (PStr <$> PyStr.chars s) <->
            exists c : N, g = [c] /\ PyStr.contains c s = true)
    as Hmembers.
  { intros g. by rewrite str_members_strings, elem_of_list_to_set, elem_of_chars. }
  split; [done|]. split; [done|].
  intros c am Hc <-.
  assert (forall groups : gset pystr,
            [c] ∈ groups ->
            [c] ∈ set_and (PStr <$> PyStr.chars s) groups) as Hin.
  { intros groups Hg. unfold set_and. apply elem_of_intersection.
    split; [|done]. apply Hmembers. by exists c. }
  split; intros Hconf.
  - intros username.
    by apply (check_allowed_by_group self am _ Hgroups username [c]); auto.
  - by apply (update_auth_model_by_group self am _ Hgroups [c]); auto.
Qed.

End Groups.

(** ** The allow and admin decisions (generic.py) *)

Section GenericDecisions.
Import Generic.
Variables (self : authenticator) (am : auth_model) (user_groups : pyset).
Hypothesis groups_computed :
  outcome (get_user_groups self (auth_state_user_info am)) = Ok user_groups.

Lemma set_and_empty (s : pyset) (groups : gset pystr) :
  set_truthy groups = false -> py_any (set_and s groups) = false.
Proof.
  unfold set_truthy. intros Hempty%negb_false_iff%bool_decide_eq_true.
  apply not_true_iff_false. rewrite py_any_true. intros (g & Hg & _).
  unfold set_and in Hg. apply elem_of_intersection in Hg as [_ Hg].
  rewrite Hempty in Hg. by apply not_elem_of_empty in Hg.
Qed.

(** What [check_allowed] decides: the base class allows, or a group with a
    name other than the empty string is both a group of the user and an
    allowed group; otherwise the user is not allowed. *)
Lemma check_allowed_outcome (username : pyval) :
  outcome (check_allowed self username am)
  = Ok (super_check_allowed self username am
        || py_any (set_and user_groups (allowed_groups self))).
Proof.
  unfold check_allowed.
  destruct (super_check_allowed self username am); [done|].
  destruct (set_truthy (allowed_groups self)) eqn:Hconf.
  - rewrite outcome_bind, groups_computed. simpl. by destruct (py_any _).
  - by rewrite set_and_empty.
Qed.

(** What [update_auth_model] decides: an admin stays one; without
    [admin_groups] the model is returned as it came; otherwise the flag
    becomes whether a group with a name other than the empty string is both a
    group of the user and an admin group. *)
Lemma update_auth_model_outcome :
  outcome (update_auth_model self am)
  = Ok (if admin_truthy am then am
        else if set_truthy (admin_groups self)
             then set_admin am (py_any (set_and user_groups (admin_groups self)))
             else am).
Proof.
  unfold update_auth_model.
  destruct (admin_truthy am); [done|].
  destruct (set_truthy (admin_groups self)); [|done].
  by rewrite outcome_bind, groups_computed.
Qed.

End GenericDecisions.

(** ** Validation of [allowed_idps] (cilogon.py) *)

Section Validation.
Import CILogon.
Context `{Library}.
Variable schema : idp_config -> bool.

Lemma validate_idp_accepted (entity_id : pystr) (c : idp_config) :
  idp_accepted schema (entity_id, c) -> validate_idp schema entity_id c = ret tt.
Proof.
  intros [Hschema (scheme & Hparse & Hscheme)]. simpl in *. unfold validate_idp.
  rewrite Hschema, bind_ret, Hparse, bind_call_Ok.
  by rewrite bool_decide_eq_true_2.
Qed.

Lemma validate_idp_bad_scheme (entity_id scheme : pystr) (c : idp_config) :
  schema c = true ->
  urlparse_scheme entity_id = Ok scheme ->
  scheme ∉ accepted_entity_id_scheme ->
  validate_idp schema entity_id c
  = mkM [(ERROR, MsgNotAnEntityId entity_id)]
        (Raise (ValueError MsgKeysMustBeEntityIds)).
Proof.
  intros Hschema Hparse Hscheme. unfold validate_idp.
  rewrite Hschema, bind_ret, Hparse, bind_call_Ok.
  by rewrite bool_decide_eq_false_2.
Qed.

(** An exception of [urlparse] leaves the loop as it is, with nothing
    logged. *)
Lemma validate_idp_urlparse_raises (entity_id : pystr) (c : idp_config)
    (e : exn) :
  schema c = true ->
  urlparse_scheme entity_id = Raise e ->
  validate_idp schema entity_id c = raise e.
Proof.
  intros Hschema Hparse. unfold validate_idp.
  by rewrite Hschema, bind_ret, Hparse, bind_call_Raise.
Qed.

Lemma validate_idp_inv (entity_id : pystr) (c : idp_config) :
  outcome (validate_idp schema entity_id c) = Ok tt ->
  idp_accepted schema (entity_id, c).
Proof.
  unfold validate_idp, idp_accepted. cbn [fst snd].
  destruct (schema c); [|done]. rewrite bind_ret.
  destruct (urlparse_scheme entity_id) as [scheme|e]; [|done].
  rewrite bind_call_Ok.
  case_bool_decide; [|done]. intros _. split; [done|]. by exists scheme.
Qed.

Lemma validate_idps_accepted (items : registry) :
  Forall (idp_accepted schema) items -> validate_idps schema items = ret tt.
Proof.
  induction 1 as [|[entity_id c] rest Hitem _ IH]; simpl; [done|].
  by rewrite (validate_idp_accepted _ _ Hitem), bind_ret.
Qed.

Lemma validate_idps_inv (items : registry) :
  outcome (validate_idps schema items) = Ok tt -> Forall (idp_accepted schema) items.
Proof.
  induction items as [|[entity_id c] rest IH]; simpl; [by constructor|].
  rewrite outcome_bind.
  destruct (outcome (validate_idp schema entity_id c)) as [[]|e] eqn:Hitem;
    [|done].
  intros Hrest. constructor; [by apply validate_idp_inv | by apply IH].
Qed.

Lemma validate_idps_app (passed remaining : registry) :
  Forall (idp_accepted schema) passed ->
  validate_idps schema (passed ++ remaining) = validate_idps schema remaining.
Proof.
  induction 1 as [|[entity_id c] rest Hitem _ IH]; simpl; [done|].
  by rewrite (validate_idp_accepted _ _ Hitem), bind_ret.
Qed.

(** The loop stops at the first item that is not accepted, with what the
    body does for that item. *)
Lemma validate_allowed_idps_first_failure
    (passed remaining : registry) (entity_id : pystr) (c : idp_config)
    (failure : M unit) (e : exn) :
  Forall (idp_accepted schema) passed ->
  validate_idp schema entity_id c = failure ->
  outcome failure = Raise e ->
  _validate_allowed_idps schema (passed ++ (entity_id, c) :: remaining)
  = mkM (logged failure) (Raise e).
Proof.
  intros Hpassed Hitem Hraise. unfold _validate_allowed_idps.
  destruct (passed ++ (entity_id, c) :: remaining) as [|item rest] eqn:Hitems.
  { by destruct passed. }
  rewrite <- Hitems, (validate_idps_app _ _ Hpassed). simpl.
  rewrite Hitem. unfold mbind, M_bind, bind. by rewrite Hraise.
Qed.

(** A configuration that is not empty and whose items all pass is returned
    as it is, and nothing is logged. *)
Lemma validate_allowed_idps_accepts (idps : registry) :
  idps <> [] -> Forall (idp_accepted schema) idps ->
  _validate_allowed_idps schema idps = ret idps.
Proof.
  intros Hne Hall. unfold _validate_allowed_idps.
  destruct idps as [|item rest]; [done|].
  by rewrite (validate_idps_accepted _ Hall), bind_ret.
Qed.

(** C8. [_validate_allowed_idps] rejects the empty configuration with a
    [ValueError]; it rejects the whole configuration with a [ValueError], and
    an error record naming the entity id, at the first item for whose entity
    id [urlparse] finds a scheme that is not one of [urn], [https], [http];
    it rejects the whole configuration with the exception of [urlparse], and
    nothing logged, at the first item on whose entity id [urlparse] raises; a
    configuration that holds any item without an accepted scheme is rejected;
    and what is returned, when something is, is the whole configuration as
    proposed, every item of which passed both checks. *)
Theorem validate_allowed_idps_rejects :
  _validate_allowed_idps schema [] = raise (ValueError MsgNoAllowedIdps)
  /\ (forall (passed remaining : registry) (entity_id scheme : pystr)
             (c : idp_config),
        Forall (idp_accepted schema) passed ->
        schema c = true ->
        urlparse_scheme entity_id = Ok scheme ->
        scheme ∉ ["urn"; "https"; "http"] ->
        _validate_allowed_idps schema (passed ++ (entity_id, c) :: remaining)
        = mkM [(ERROR, MsgNotAnEntityId entity_id)]
              (Raise (ValueError MsgKeysMustBeEntityIds)))
  /\ (forall (passed remaining : registry) (entity_id : pystr)
             (c : idp_config) (e : exn),
        Forall (idp_accepted schema) passed ->
        schema c = true ->
        urlparse_scheme entity_id = Raise e ->
        _validate_allowed_idps schema (passed ++ (entity_id, c) :: remaining)
        = raise e)
  /\ (forall (idps : registry) (entity_id : pystr) (c : idp_config),
        (entity_id, c) ∈ idps ->
        (forall scheme : pystr,
            urlparse_scheme entity_id = Ok scheme ->
            scheme ∉ ["urn"; "https"; "http"]) ->
        exists e : exn, outcome (_validate_allowed_idps schema idps) = Raise e)
  /\ (forall idps accepted : registry,
        outcome (_validate_allowed_idps schema idps) = Ok accepted ->
        accepted = idps /\ idps <> [] /\ Forall (idp_accepted schema) idps).
Proof.
  assert (forall idps accepted : registry,
            outcome (_validate_allowed_idps schema idps) = Ok accepted ->
            accepted = idps /\ idps <> [] /\ Forall (idp_accepted schema) idps) as Hinv.
  { intros idps accepted. unfold _validate_allowed_idps.
    destruct idps as [|item rest]; [done|].
    rewrite outcome_bind.
    destruct (outcome (validate_idps schema (item :: rest))) as [[]|e] eqn:Hloop;
      [|done].
    simpl. intros [= <-]. split; [done|]. split; [done|].
    by apply validate_idps_inv. }
  split; [done|]. split; [|split; [|split; [|done]]].
  - intros passed remaining entity_id scheme c Hpassed Hschema Hparse Hscheme.
    by rewrite (validate_allowed_idps_first_failure passed remaining entity_id c
                  _ _ Hpassed
                  (validate_idp_bad_scheme _ _ _ Hschema Hparse Hscheme) eq_refl).
  - intros passed remaining entity_id c e Hpassed Hschema Hparse.
    by rewrite (validate_allowed_idps_first_failure passed remaining entity_id c
                  _ _ Hpassed
                  (validate_idp_urlparse_raises _ _ _ Hschema Hparse) eq_refl).
  - intros idps entity_id c Hin Hscheme.
    destruct (outcome (_validate_allowed_idps schema idps)) as [accepted|e]
      eqn:Hout; [|by exists e].
    destruct (Hinv _ _ Hout) as (_ & _ & Hall).
    rewrite Forall_forall in Hall.
    destruct (Hall _ Hin) as [_ (scheme & Hparse & Haccepted)].
    by destruct (Hscheme scheme Hparse).
Qed.

End Validation.

(** ** Runs on the sample configurations *)

Section Runs.
Import Sample SampleLogin.
Local Existing Instance sample_library.



(** A run of C5: a provider that is not in the sample configuration. *)
Lemma unknown_provider_aborts_with_500_witness :
  exists m : message,
    CILogon.user_info_to_username cilogon
      (doc [("idp", PStr "https://idp.example.org/shibboleth");
            ("email", PStr "mallory@example.org")])
    = mkM [(ERROR, m)] (Raise (HTTPError 500 m)).
Proof.
  destruct (unknown_provider_aborts_with_500 cilogon
              (doc [("idp", PStr "https://idp.example.org/shibboleth");
                    ("email", PStr "mallory@example.org")]))
    as (m & Hm & _).
  - right. exists "https://idp.example.org/shibboleth".
    split; vm_compute; reflexivity.
  - exists m. exact Hm.
Defined.

(** A run of C8: after a valid entry, a domain name among the keys, and a
    key on which [urlparse] raises. *)
Lemma validate_allowed_idps_rejects_witness :
  CILogon._validate_allowed_idps CILogon.cilogon_schema
    [ (utoronto,
       CILogon.mk_idp_config
         (Some (CILogon.mk_username_derivation (Some "email") None None None))
         None);
      ("uni.edu",
       CILogon.mk_idp_config
         (Some (CILogon.mk_username_derivation (Some "email") None None None))
         None) ]
  = mkM [(ERROR, MsgNotAnEntityId "uni.edu")]
        (Raise (ValueError MsgKeysMustBeEntityIds))
  /\ CILogon._validate_allowed_idps CILogon.cilogon_schema
       [ (utoronto,
          CILogon.mk_idp_config
            (Some (CILogon.mk_username_derivation (Some "email") None None None))
            None);
         ("http://[abc",
          CILogon.mk_idp_config
            (Some (CILogon.mk_username_derivation (Some "email") None None None))
            None) ]
     = raise (ValueError (MsgOfLibrary "Invalid IPv6 URL")).
Proof.
  destruct (validate_allowed_idps_rejects CILogon.cilogon_schema)
    as (_ & Hfirst & Hraises & _).
  assert (Forall (CILogon.idp_accepted CILogon.cilogon_schema)
            [ (utoronto,
               CILogon.mk_idp_config
                 (Some (CILogon.mk_username_derivation
                          (Some "email") None None None))
                 None) ]) as Hpassed.
  { constructor; [|constructor]. split; [reflexivity|].
    exists "https". split; [vm_compute; reflexivity | compute_done]. }
  split.
  - apply (Hfirst _ [] "uni.edu" "" _ Hpassed).
    + reflexivity.
    + vm_compute. reflexivity.
    + compute_done.
  - apply (Hraises _ [] "http://[abc" _ _ Hpassed).
    + reflexivity.
    + vm_compute. reflexivity.
Defined.

(** A run of C9: the groups under [permissions]; and [permissions] that is
    no mapping. *)
Lemma groups_claim_is_found_or_reported_witness :
  Generic.get_user_groups (generic "permissions.groups" [] [])
    (doc [("permissions", PDict (doc [("groups", PList [PStr "staff"])]))])
  = ret [PStr "staff"]
  /\ Generic.get_user_groups (generic "permissions.groups" [] [])
       (doc [("permissions", PStr "none")])
     = mkM [(ERROR, MsgGroupsKeyNotFound "permissions.groups")] (Ok []).
Proof.
  split.
  - destruct (groups_claim_is_found_or_reported
                (generic "permissions.groups" [] []) "permissions.groups"
                (doc [("permissions", PDict (doc [("groups", PList [PStr "staff"])]))])
                ltac:(reflexivity)) as [Hfound _].
    destruct (Hfound (PList [PStr "staff"]) ltac:(vm_compute; reflexivity))
      as (_ & _ & Hgroups & _).
    apply Hgroups. reflexivity.
  - destruct (groups_claim_is_found_or_reported
                (generic "permissions.groups" [] []) "permissions.groups"
                (doc [("permissions", PStr "none")])
                ltac:(reflexivity)) as [_ Hmissing].
    destruct (Hmissing ltac:(vm_compute; reflexivity)) as (_ & _ & Hgroups).
    exact Hgroups.
Defined.

(** A document without the groups claim: the descent finds nothing,
    [reduce(dict.get, ...)] returns [None] in its place, and
    [get_user_groups] returns the empty set, the value it returns for a
    document whose groups claim is the empty list. No exception and no other
    distinguished outcome tells the two documents apart; only the log
    does. *)
Lemma missing_groups_claim_gives_the_empty_set :
  extract_path (PyStr.split (PyStr.ord ".") "groups")
    (PDict (doc [("username", PStr "bob")]))
  = None
  /\ Generic.reduce_dict_get (PyStr.split (PyStr.ord ".") "groups")
       (PDict (doc [("username", PStr "bob")]))
     = ret PNone
  /\ outcome (Generic.get_user_groups (generic "groups" [] [])
                (doc [("username", PStr "bob")]))
     = Ok []
  /\ outcome (Generic.get_user_groups (generic "groups" [] [])
                (doc [("username", PStr "bob"); ("groups", PList [])]))
     = Ok [].
Proof. repeat split; vm_compute; reflexivity. Qed.

(** A run of C10: the groups claim ["staff"] and the allowed group ["f"]. *)
Lemma string_groups_claim_is_split_into_characters_witness :
  Generic.get_user_groups (generic "permissions.groups" ["f"] [])
    (doc [("permissions", PDict (doc [("groups", PStr "staff")]))])
  = ret [PStr "s"; PStr "t"; PStr "a"; PStr "f"; PStr "f"]
  /\ Generic.check_allowed (generic "permissions.groups" ["f"] []) (PStr "bob")
       (model "bob" [("permissions", PDict (doc [("groups", PStr "staff")]))])
     = ret true.
Proof.
  destruct (string_groups_claim_is_split_into_characters
              (generic "permissions.groups" ["f"] []) "permissions.groups"
              (doc [("permissions", PDict (doc [("groups", PStr "staff")]))])
              "staff" ltac:(reflexivity) ltac:(vm_compute; reflexivity))
    as (Hgroups & _ & Hmatch).
  split; [exact Hgroups|].
  destruct (Hmatch (PyStr.ord "f")
              (model "bob" [("permissions", PDict (doc [("groups", PStr "staff")]))])
              ltac:(reflexivity) ltac:(reflexivity)) as [Hallowed _].
  apply Hallowed. compute_done.
Defined.

(** C2. [GenericOAuthenticator.user_info_to_username] checks the claim for
    emptiness only when [username_claim] is a string: with a callable, the
    value the callable returns is the username even when it is [None] or the
    empty string, where the same document under the string key is refused
    with a [ValueError]. *)
Theorem callable_username_claim_is_not_checked :
  Generic.user_info_to_username generic_callable (doc [("sub", PStr "1234")])
  = ret PNone
  /\ Generic.user_info_to_username generic_callable
       (doc [("preferred_username", PStr "")])
     = ret (PStr "")
  /\ outcome (Generic.user_info_to_username (generic "groups" [] [])
                (doc [("username", PStr "")]))
     = Raise (ValueError (MsgNoUsernameFound "username" (doc [("username", PStr "")]))).
Proof. repeat split; vm_compute; reflexivity. Qed.

(** C3. The domain check lowers the domain of the user and looks it up among
    the configured domains as they are written: against the allowed domain
    [Uni.edu], the user [bob@Uni.edu] is refused with [HTTPError(403, ...)],
    although the domains are equal, and so is [bob@uni.edu]. *)
Theorem capital_allowed_domain_never_matches :
  CILogon.check_allowed capital_cilogon (PStr "bob@Uni.edu")
    (model "bob@Uni.edu" [("idp", PStr google); ("email", PStr "bob@Uni.edu")])
  = mkM [(WARNING, MsgDomainNotAllowed "uni.edu")]
        (Raise (HTTPError 403 (MsgDomainNotAllowed "uni.edu")))
  /\ CILogon.check_allowed capital_cilogon (PStr "bob@uni.edu")
       (model "bob@uni.edu" [("idp", PStr google); ("email", PStr "bob@uni.edu")])
     = mkM [(WARNING, MsgDomainNotAllowed "uni.edu")]
           (Raise (HTTPError 403 (MsgDomainNotAllowed "uni.edu"))).
Proof. split; vm_compute; reflexivity. Qed.

(** C4. With [allowed_domains] configured, a username claim without ["@"]
    makes [check_allowed] raise [IndexError]: the check is not skipped. *)
Theorem domain_check_without_at_raises_IndexError :
  CILogon.check_allowed cilogon (PStr "bob")
    (model "bob" [("idp", PStr google); ("username", PStr "bob")])
  = raise IndexError.
Proof. vm_compute. reflexivity. Qed.

(** C6. [check_allowed] tests the common groups with [any]: when the only
    common group is the one named by the empty string, the intersection is
    not empty and the user is still not allowed. *)
Theorem group_named_by_empty_string_is_not_allowed :
  Generic.get_user_groups (generic "groups" [""; "staff"] [])
    (doc [("groups", PList [PStr ""; PStr "alumni"])])
  = ret [PStr ""; PStr "alumni"]
  /\ Generic.set_and [PStr ""; PStr "alumni"]
       (Generic.allowed_groups (generic "groups" [""; "staff"] []))
     = {[ "" ]}
  /\ Generic.check_allowed (generic "groups" [""; "staff"] []) (PStr "bob")
       (model "bob" [("groups", PList [PStr ""; PStr "alumni"])])
     = ret false.
Proof. repeat split; vm_compute; reflexivity. Qed.

(** C7. [update_auth_model] tests the common groups with [any]: when the
    only common group is the one named by the empty string, the user's groups
    intersect [admin_groups] and the admin flag is still set to [False]. *)
Theorem admin_group_named_by_empty_string_is_not_admin :
  Generic.set_and [PStr ""; PStr "alumni"]
    (Generic.admin_groups (generic "groups" [] [""; "ops"]))
  = {[ "" ]}
  /\ Generic.update_auth_model (generic "groups" [] [""; "ops"])
       (model "bob" [("groups", PList [PStr ""; PStr "alumni"])])
     = ret (set_admin (model "bob" [("groups", PList [PStr ""; PStr "alumni"])])
                      false).
Proof. split; vm_compute; reflexivity. Qed.

(** *** The examples of the configuration help text *)

Example strip_idp_domain_other_domain :
  CILogon.user_info_to_username cilogon
    (doc [("idp", PStr utoronto); ("email", PStr "alice@otherdomain.edu")])
  = ret (PStr "alice@otherdomain.edu").
Proof. vm_compute. reflexivity. Qed.

Example prefix_octocat :
  CILogon.user_info_to_username cilogon
    (doc [("idp", PStr github); ("username", PStr "octocat")])
  = ret (PStr "gh:octocat").
Proof. vm_compute. reflexivity. Qed.

(** A claim that is nothing but the domain to strip leaves the empty string
    as the username. *)
Example strip_idp_domain_whole_claim :
  CILogon.user_info_to_username cilogon
    (doc [("idp", PStr utoronto); ("email", PStr "@utoronto.ca")])
  = ret (PStr "").
Proof. vm_compute. reflexivity. Qed.

Example allowed_domain_uni_edu :
  CILogon.check_allowed cilogon (PStr "bob@UNI.edu")
    (model "bob@UNI.edu" [("idp", PStr google); ("username", PStr "bob@UNI.edu")])
  = ret true.
Proof. vm_compute. reflexivity. Qed.

Example allowed_domain_other_org :
  CILogon.check_allowed cilogon (PStr "bob@other.org")
    (model "bob@other.org" [("idp", PStr google); ("username", PStr "bob@other.org")])
  = mkM [(WARNING, MsgDomainNotAllowed "other.org")]
        (Raise (HTTPError 403 (MsgDomainNotAllowed "other.org"))).
Proof. vm_compute. reflexivity. Qed.

Example allowed_group_staff :
  Generic.check_allowed (generic "groups" ["staff"] []) (PStr "bob")
    (model "bob" [("groups", PList [PStr "staff"; PStr "alumni"])])
  = ret true
  /\ Generic.check_allowed (generic "groups" ["staff"] []) (PStr "bob")
       (model "bob" [("groups", PList [PStr "alumni"])])
     = ret false.
Proof. split; vm_compute; reflexivity. Qed.

Example admin_group_ops :
  Generic.update_auth_model (generic "groups" [] ["ops"])
    (model "bob" [("groups", PList [PStr "ops"])])
  = ret (set_admin (model "bob" [("groups", PList [PStr "ops"])]) true).
Proof. vm_compute. reflexivity. Qed.

Example groups_of_staff :
  Generic.str_members [PStr "s"; PStr "t"; PStr "a"; PStr "f"; PStr "f"]
  = {[ "s"; "t"; "a"; "f" ]}.
Proof. vm_compute. reflexivity. Qed.

End Runs.

(** * Further properties of the methods *)

(** ** Username derivation (cilogon.py) *)

Section MoreUsernameDerivation.
Import CILogon.
Context `{Library}.

(** X1. Whatever [_user_info_to_unprocessed_username] returns is the value
    that the document holds under the claim configured for its provider, and
    that value is true: never [None], the empty string, zero or an empty
    container. *)
Theorem unprocessed_username_is_nonempty_claim
    (self : authenticator) (user_info : pydict) (username : pyval) :
  outcome (_user_info_to_unprocessed_username self user_info) = Ok username ->
  truthy username = true
  /\ exists (idp : pystr) (cfg : idp_config) (ud : username_derivation_t)
            (claim : pystr),
       user_info !! "idp" = Some (PStr idp)
       /\ assoc (allowed_idps self) idp = Some cfg
       /\ username_derivation cfg = Some ud
       /\ username_claim ud = Some claim
       /\ user_info !! claim = Some username.
Proof.
  unfold _user_info_to_unprocessed_username.
  destruct (user_info !! "idp") as [v|] eqn:Hidp; [|done].
  rewrite bind_item_Some.
  destruct v as [| | | |idp| |]; try done.
  unfold allowed_idps_item, allowed_idps_get. rewrite bind_ret.
  destruct (assoc (allowed_idps self) idp) as [cfg|] eqn:Hcfg; [|done].
  rewrite bind_item_Some.
  destruct (username_derivation cfg) as [ud|] eqn:Hud; [|done].
  rewrite bind_item_Some.
  destruct (username_claim ud) as [claim|] eqn:Hclaim; [|done].
  rewrite bind_item_Some. cbv zeta.
  destruct (user_info !! claim) as [u|] eqn:Hu; [|done].
  change (default PNone (Some u)) with u.
  destruct (truthy u) eqn:Htruthy; [|done].
  intros [= <-]. split; [done|]. by exists idp, cfg, ud, claim.
Qed.

Section ConfiguredClaim.
Variables (self : authenticator) (user_info : pydict).
Variables (idp : pystr) (cfg : idp_config) (ud : username_derivation_t).
Variable claim : pystr.
Hypothesis user_idp_is_idp : user_info !! "idp" = Some (PStr idp).
Hypothesis idp_nonempty : idp <> "".
Hypothesis idp_is_allowed : assoc (allowed_idps self) idp = Some cfg.
Hypothesis idp_derivation : username_derivation cfg = Some ud.
Hypothesis idp_claim : username_claim ud = Some claim.

(** For a document of a configured provider, [user_info_to_username] is the
    two username methods in a row. *)
Lemma user_info_to_username_configured :
  user_info_to_username self user_info =
  (unprocessed_username ← _user_info_to_unprocessed_username self user_info;
   _get_processed_username self unprocessed_username user_info).
Proof.
  unfold user_info_to_username. rewrite user_idp_is_idp.
  change (default PNone (Some (PStr idp))) with (PStr idp).
  assert (truthy (PStr idp) = true) as ->.
  { simpl. by destruct idp. }
  cbv [negb]. unfold allowed_idps_get. rewrite idp_is_allowed, bind_ret.
  unfold idp_config_truthy. simpl. by rewrite idp_derivation.
Qed.

(** X2. For a document of a configured provider in which the configured
    username claim is absent, null or empty, [user_info_to_username] logs one
    error naming the claim, the provider and the keys of the document, and
    raises [HTTPError(500, ...)] with the same message. *)
Theorem missing_username_claim_aborts_with_500 :
  truthy (default PNone (user_info !! claim)) = false ->
  user_info_to_username self user_info
  = mkM [(ERROR, MsgUsernameClaimNotFound claim (PStr idp) (dom user_info))]
        (Raise (HTTPError 500
                  (MsgUsernameClaimNotFound claim (PStr idp) (dom user_info)))).
Proof.
  intros Hfalsy. rewrite user_info_to_username_configured.
  rewrite (unprocessed_username_eq self user_info idp cfg ud claim) by done.
  cbv zeta. by rewrite Hfalsy.
Qed.

(** X3. With the action [strip_idp_domain], a claim that holds a true value
    that is no string (a number, a list, an object) makes
    [user_info_to_username] raise [AttributeError]: the value has no
    [lower]. *)
Theorem strip_idp_domain_needs_a_string (d : pystr) (v : pyval) :
  action ud = Some "strip_idp_domain" ->
  domain ud = Some d ->
  user_info !! claim = Some v ->
  truthy v = true ->
  (forall s : pystr, v <> PStr s) ->
  user_info_to_username self user_info = raise AttributeError.
Proof.
  intros Hact Hdom Hv Htruthy Hnostr. rewrite user_info_to_username_configured.
  rewrite (unprocessed_username_eq self user_info idp cfg ud claim) by done.
  cbv zeta. rewrite Hv. change (default PNone (Some v)) with v.
  rewrite Htruthy, bind_ret.
  by apply (processed_username_strip_no_str self user_info idp cfg ud
              user_idp_is_idp idp_is_allowed idp_derivation d).
Qed.

End ConfiguredClaim.

(** X4. Usernames made by the [prefix] action are told apart by the prefix
    and by the text of the claim: when the prefixes of two providers hold no
    colon, equal usernames come from equal prefixes and from claim values
    with the same [str()] text. Two claims that are strings are then equal;
    a claim that is no string collides with the string of its text. *)
Theorem prefixed_usernames_do_not_collide
    (self : authenticator) (user_info1 user_info2 : pydict)
    (idp1 idp2 : pystr) (cfg1 cfg2 : idp_config)
    (ud1 ud2 : username_derivation_t) (p1 p2 : pystr) (raw1 raw2 : pyval) :
  user_info1 !! "idp" = Some (PStr idp1) ->
  assoc (allowed_idps self) idp1 = Some cfg1 ->
  username_derivation cfg1 = Some ud1 ->
  action ud1 = Some "prefix" -> prefix ud1 = Some p1 ->
  user_info2 !! "idp" = Some (PStr idp2) ->
  assoc (allowed_idps self) idp2 = Some cfg2 ->
  username_derivation cfg2 = Some ud2 ->
  action ud2 = Some "prefix" -> prefix ud2 = Some p2 ->
  PyStr.contains (PyStr.ord ":") p1 = false ->
  PyStr.contains (PyStr.ord ":") p2 = false ->
  (_get_processed_username self raw1 user_info1
   = _get_processed_username self raw2 user_info2 ->
   p1 = p2
   /\ py_str raw1 = py_str raw2
   /\ forall s1 s2 : pystr, raw1 = PStr s1 -> raw2 = PStr s2 -> s1 = s2)
  /\ (py_str raw1 = py_str raw2 -> p1 = p2 ->
      _get_processed_username self raw1 user_info1
      = _get_processed_username self raw2 user_info2).
Proof.
  intros Hidp1 Hcfg1 Hud1 Hact1 Hp1 Hidp2 Hcfg2 Hud2 Hact2 Hp2 Hno1 Hno2.
  rewrite (processed_username_prefix self user_info1 idp1 cfg1 ud1
             Hidp1 Hcfg1 Hud1 p1 _ Hact1 Hp1).
  rewrite (processed_username_prefix self user_info2 idp2 cfg2 ud2
             Hidp2 Hcfg2 Hud2 p2 _ Hact2 Hp2).
  split.
  - intros [= Heq].
    pose proof (partition_app (PyStr.ord ":") p1 (py_str raw1) Hno1) as Hcut1.
    pose proof (partition_app (PyStr.ord ":") p2 (py_str raw2) Hno2) as Hcut2.
    assert (p1 ++ PyStr.ord ":" :: py_str raw1
            = p2 ++ PyStr.ord ":" :: py_str raw2) as Hsame by exact Heq.
    rewrite Hsame, Hcut2 in Hcut1. injection Hcut1 as Hp Hraw.
    split; [done|]. split; [done|].
    intros s1 s2 -> ->. by rewrite !py_str_PStr in Hraw.
  - by intros -> ->.
Qed.

End MoreUsernameDerivation.

(** ** The allow decision (cilogon.py) *)

Section MoreDomainCheck.
Import CILogon.
Context `{Library}.

(** X6. For a document of a configured provider that has no
    [allowed_domains], or an empty list of them, [check_allowed] decides what
    the base class decides, logs nothing and raises nothing: the username
    claim is not even read. *)
Theorem check_allowed_without_allowed_domains
    (self : authenticator) (username : pyval) (am : auth_model)
    (idp : pystr) (cfg : idp_config) :
  auth_state_user_info am !! "idp" = Some (PStr idp) ->
  assoc (allowed_idps self) idp = Some cfg ->
  allowed_domains cfg = None \/ allowed_domains cfg = Some [] ->
  check_allowed self username am = ret (super_check_allowed self username am).
Proof.
  intros Hidp Hcfg Hdomains. unfold check_allowed.
  destruct (super_check_allowed self username am); [done|].
  rewrite Hidp, bind_item_Some.
  unfold allowed_idps_item, allowed_idps_get.
  rewrite Hcfg, bind_ret, bind_item_Some.
  by destruct Hdomains as [-> | ->].
Qed.

(** When the base class does not allow, a document whose provider is not in
    [allowed_idps] makes [check_allowed] raise [KeyError]. *)
Lemma check_allowed_unknown_provider
    (self : authenticator) (username : pyval) (am : auth_model) (idp : pystr) :
  super_check_allowed self username am = false ->
  auth_state_user_info am !! "idp" = Some (PStr idp) ->
  assoc (allowed_idps self) idp = None ->
  check_allowed self username am = raise KeyError.
Proof.
  intros Hbase Hidp Hcfg. unfold check_allowed.
  rewrite Hbase, Hidp, bind_item_Some.
  unfold allowed_idps_item, allowed_idps_get.
  by rewrite Hcfg, bind_ret.
Qed.

End MoreDomainCheck.

(** ** Validation of [allowed_idps], continued *)

Section MoreValidation.
Import CILogon.
Context `{Library}.
Variable schema : idp_config -> bool.

(** X9. [_validate_allowed_idps] returns the proposed configuration, and
    logs nothing, exactly when the configuration is not empty and every item
    passes the schema and has an entity id for which [urlparse] returns, with
    an accepted scheme: such a configuration is never rejected or changed,
    and a configuration with a key on which [urlparse] raises is never
    returned. *)
Theorem validate_allowed_idps_accepts_iff (idps : registry) :
  _validate_allowed_idps schema idps = ret idps
  <-> idps <> []
      /\ Forall (fun item : pystr * idp_config =>
                   schema item.2 = true
                   /\ exists entity_id_scheme : pystr,
                        urlparse_scheme item.1 = Ok entity_id_scheme
                        /\ entity_id_scheme ∈ ["urn"; "https"; "http"])
                idps.
Proof.
  change (_validate_allowed_idps schema idps = ret idps
          <-> idps <> [] /\ Forall (idp_accepted schema) idps).
  split.
  - intros Hret. unfold _validate_allowed_idps in Hret.
    destruct idps as [|item rest]; [done|]. split; [done|].
    apply validate_idps_inv.
    apply (f_equal outcome) in Hret. rewrite outcome_bind in Hret.
    by destruct (outcome (validate_idps schema (item :: rest))) as [[]|e].
  - intros [Hne Hall]. by apply validate_allowed_idps_accepts.
Qed.

(** X10. The schema is checked before the entity id: the first item that
    fails the schema makes [_validate_allowed_idps] raise the schema's
    [ValidationError], with nothing logged, whatever its entity id and
    whatever follows it. *)
Theorem validate_allowed_idps_schema_error
    (passed remaining : registry) (entity_id : pystr) (c : idp_config) :
  Forall (idp_accepted schema) passed ->
  schema c = false ->
  _validate_allowed_idps schema (passed ++ (entity_id, c) :: remaining)
  = raise ValidationError.
Proof.
  intros Hpassed Hschema. unfold _validate_allowed_idps.
  destruct (passed ++ (entity_id, c) :: remaining) as [|item rest] eqn:Hitems.
  { by destruct passed. }
  rewrite <- Hitems, (validate_idps_app _ _ _ Hpassed). simpl.
  unfold validate_idp. by rewrite Hschema.
Qed.

End MoreValidation.

(** ** The scope trait (cilogon.py) *)

Section Scope.
Import CILogonLogin.
Local Set Warnings "-clear-no-such-hyp".

(** The scopes that [_validate_scope] appends. *)
Lemma validate_scope_eq (value : list pystr) :
  _validate_scope value =
  value
  ++ (if decide ("openid" ∈ value) then [] else ["openid"])
  ++ (if decide ("org.cilogon.userinfo" ∈ value) then []
      else ["org.cilogon.userinfo"]).
Proof.
  unfold _validate_scope. cbv zeta.
  destruct (decide ("openid" ∈ value)) as [Hopenid|Hopenid].
  - rewrite (bool_decide_eq_false_2 ("openid" ∉ value)) by auto.
    destruct (decide ("org.cilogon.userinfo" ∈ value)) as [Hinfo|Hinfo].
    + rewrite bool_decide_eq_false_2 by auto. by rewrite app_nil_r.
    + by rewrite bool_decide_eq_true_2.
  - rewrite (bool_decide_eq_true_2 ("openid" ∉ value)) by done.
    destruct (decide ("org.cilogon.userinfo" ∈ value)) as [Hinfo|Hinfo].
    + rewrite bool_decide_eq_false_2; [by rewrite app_nil_r|].
      intros Hno. apply Hno, elem_of_app. by left.
    + rewrite bool_decide_eq_true_2; [by rewrite <- app_assoc|].
      intros [?|Hin%list_elem_of_singleton]%elem_of_app; done.
Qed.

(** X11. [_validate_scope] returns a list that holds both [openid] and
    [org.cilogon.userinfo]; it keeps the proposed scopes, in their order, and
    appends only required scopes that were missing, so it adds no duplicate;
    and validating its result changes nothing. *)
Theorem validate_scope_adds_required_scopes (value : list pystr) :
  "openid" ∈ _validate_scope value
  /\ "org.cilogon.userinfo" ∈ _validate_scope value
  /\ (exists added : list pystr,
        _validate_scope value = value ++ added
        /\ forall s, s ∈ added ->
             (s ∉ value) /\ (s = "openid" \/ s = "org.cilogon.userinfo"))
  /\ (NoDup value -> NoDup (_validate_scope value))
  /\ _validate_scope (_validate_scope value) = _validate_scope value.
Proof.
  assert ("openid" ∈ _validate_scope value) as Hopenid.
  { rewrite validate_scope_eq.
    destruct (decide ("openid" ∈ value)) as [Ho|Ho]; set_solver. }
  assert ("org.cilogon.userinfo" ∈ _validate_scope value) as Hinfo.
  { rewrite validate_scope_eq.
    destruct (decide ("org.cilogon.userinfo" ∈ value)) as [Hi|Hi]; set_solver. }
  split; [done|]. split; [done|]. split; [|split].
  - rewrite validate_scope_eq. eexists. split; [done|].
    intros s.
    destruct (decide ("openid" ∈ value)) as [Ho|Ho],
             (decide ("org.cilogon.userinfo" ∈ value)) as [Hi|Hi]; set_solver.
  - intros Hnodup. rewrite validate_scope_eq.
    apply NoDup_app. split; [done|]. split.
    + intros s Hs.
      destruct (decide ("openid" ∈ value)) as [Ho|Ho],
               (decide ("org.cilogon.userinfo" ∈ value)) as [Hi|Hi]; set_solver.
    + destruct (decide ("openid" ∈ value)) as [Ho|Ho],
               (decide ("org.cilogon.userinfo" ∈ value)) as [Hi|Hi];
        simpl; repeat constructor; set_solver.
  - rewrite (validate_scope_eq (_validate_scope value)).
    rewrite !decide_True by done. by rewrite !app_nil_r.
Qed.

End Scope.

(** ** The login handler (cilogon.py) *)

Section SplitJoin.
Import PyStr.

Lemma split_fields_no_sep (sep : N) (a : pystr) :
  contains sep a = false -> split_fields sep a = (a, []).
Proof.
  induction a as [|c r IH]; [done|]. simpl.
  intros [Hc Hr]%orb_false_iff. by rewrite (IH Hr), Hc.
Qed.

Lemma split_fields_app (sep : N) (a r : pystr) :
  contains sep a = false ->
  split_fields sep (a ++ sep :: r)
  = (a, (split_fields sep r).1 :: (split_fields sep r).2).
Proof.
  induction a as [|c a IH]; intros Hno; simpl in *.
  - destruct (split_fields sep r) as [h t]. by rewrite N.eqb_refl.
  - apply orb_false_iff in Hno as [Hc Hno]. by rewrite (IH Hno), Hc.
Qed.

(** Splitting what was joined gives the items back, when there is an item
    and no item holds the separator. *)
Lemma split_str_join (sep : N) (items : list pystr) :
  items <> [] ->
  Forall (fun x => contains sep x = false) items ->
  split sep (str_join [sep] items) = items.
Proof.
  intros Hne Hall. induction Hall as [|x rest Hx Hrest IH]; [done|].
  destruct rest as [|y rest].
  - unfold split. simpl. by rewrite (split_fields_no_sep _ _ Hx).
  - change (str_join [sep] (x :: y :: rest))
      with (x ++ sep :: str_join [sep] (y :: rest)).
    unfold split in *. rewrite (split_fields_app _ _ _ Hx).
    destruct (split_fields sep (str_join [sep] (y :: rest))) as [h t].
    simpl. f_equal. by apply IH.
Qed.

End SplitJoin.

Section LoginHandler.
Import CILogonLogin.
Variables (self : handler) (kwargs : pydict) (given : pydict).

(** The caller passed no [extra_params] ([given] is then the empty dict of
    [setdefault]) or passed the dict [given]. *)
Hypothesis extra_params_given :
  (kwargs !! "extra_params" = None /\ given = ∅)
  \/ kwargs !! "extra_params" = Some (PDict given).

Lemma authorize_redirect_eq :
  authorize_redirect self kwargs =
  ret (<["extra_params" :=
          PDict (let extra_params :=
                   <["selected_idp" :=
                       PStr (str_join "," (CILogon.allowed_idps (authenticator self)).*1)]>
                     given in
                 if truthy (PStr (skin self))
                 then <["skin" := PStr (skin self)]> extra_params
                 else extra_params)]> kwargs).
Proof.
  unfold authorize_redirect.
  destruct extra_params_given as [[Hnone ->] | Hsome].
  - rewrite Hnone. rewrite lookup_insert_eq. cbv zeta.
    by rewrite insert_insert_eq.
  - by rewrite Hsome, Hsome.
Qed.

(** X12. [authorize_redirect] forwards the keyword arguments it was given,
    with these changes to [extra_params] only: [selected_idp] is set to the
    entity ids of [allowed_idps] joined by commas, replacing what the caller
    passed; [skin] is set to the authenticator's skin when that is not empty,
    and is left as the caller passed it otherwise; every other extra
    parameter is kept. *)
Theorem authorize_redirect_forwards :
  exists kwargs' extra_params : pydict,
    authorize_redirect self kwargs = ret kwargs'
    /\ kwargs' !! "extra_params" = Some (PDict extra_params)
    /\ (forall k : pystr, k <> "extra_params" -> kwargs' !! k = kwargs !! k)
    /\ extra_params !! "selected_idp"
       = Some (PStr (str_join "," (CILogon.allowed_idps (authenticator self)).*1))
    /\ extra_params !! "skin"
       = (if decide (skin self = "") then given !! "skin"
          else Some (PStr (skin self)))
    /\ (forall k : pystr,
          k <> "selected_idp" -> k <> "skin" -> extra_params !! k = given !! k).
Proof.
  eexists _, _. split; [apply authorize_redirect_eq|].
  split; [by rewrite lookup_insert_eq|].
  split; [by intros k Hk; rewrite lookup_insert_ne|].
  cbv zeta.
  destruct (decide (skin self = "")) as [->|Hskin].
  - simpl. split; [by rewrite lookup_insert_eq|].
    split; [by rewrite lookup_insert_ne|].
    intros k Hk _. by rewrite lookup_insert_ne.
  - assert (truthy (PStr (skin self)) = true) as ->.
    { simpl. by destruct (skin self). }
    split; [by rewrite lookup_insert_ne, lookup_insert_eq|].
    split; [by rewrite lookup_insert_eq|].
    intros k Hk1 Hk2. by rewrite !lookup_insert_ne.
Qed.

(** X13. When [allowed_idps] is not empty and no entity id holds a comma,
    splitting the [selected_idp] that [authorize_redirect] sends at the commas
    gives the entity ids of [allowed_idps] back, in their order. *)
Theorem selected_idp_lists_the_allowed_idps :
  CILogon.allowed_idps (authenticator self) <> [] ->
  Forall (fun item : pystr * CILogon.idp_config =>
            PyStr.contains (PyStr.ord ",") item.1 = false)
         (CILogon.allowed_idps (authenticator self)) ->
  exists (kwargs' extra_params : pydict) (selected_idp : pystr),
    authorize_redirect self kwargs = ret kwargs'
    /\ kwargs' !! "extra_params" = Some (PDict extra_params)
    /\ extra_params !! "selected_idp" = Some (PStr selected_idp)
    /\ PyStr.split (PyStr.ord ",") selected_idp
       = (CILogon.allowed_idps (authenticator self)).*1.
Proof.
  intros Hne Hcommas.
  eexists _, _, _. split; [apply authorize_redirect_eq|].
  split; [by rewrite lookup_insert_eq|].
  split.
  - cbv zeta. destruct (truthy (PStr (skin self))).
    + by rewrite lookup_insert_ne, lookup_insert_eq.
    + by rewrite lookup_insert_eq.
  - apply (split_str_join (PyStr.ord ",")).
    + by destruct (CILogon.allowed_idps (authenticator self)).
    + by apply Forall_fmap.
Qed.

End LoginHandler.

(** ** Usernames, groups and decisions (generic.py), continued *)

Section MoreGeneric.
Import Generic.

(** X14. With a string [username_claim], [user_info_to_username] returns a
    username exactly when the document holds a true value under that key, and
    the username is that value: never [None], never the empty string. *)
Theorem username_key_iff
    (self : authenticator) (user_info : pydict) (k : pystr) (username : pyval) :
  username_claim self = Key k ->
  outcome (user_info_to_username self user_info) = Ok username
  <-> user_info !! k = Some username /\ truthy username = true.
Proof.
  intros Hkey. unfold user_info_to_username. rewrite Hkey.
  destruct (user_info !! k) as [v|]; simpl.
  - destruct (truthy v) eqn:Htruthy; simpl.
    + split; [by intros [= <-] | by intros [[= <-] _]].
    + split; [done | intros [[= <-] ?]; congruence].
  - split; [done | by intros [? _]].
Qed.

Lemma reduce_dict_get_cases (keys : list pystr) (document : pyval) :
  (exists v, reduce_dict_get keys document = ret v)
  \/ reduce_dict_get keys document = raise TypeError.
Proof.
  revert document; induction keys as [|k rest IH]; intros document; simpl.
  - left. by exists document.
  - destruct document as [| | | | | |m]; try (by right).
    unfold dict_get. rewrite bind_ret. apply IH.
Qed.

Lemma py_set_cases (v : pyval) :
  (exists s, py_set v = ret s) \/ py_set v = raise TypeError.
Proof.
  destruct v as [| | | |s|l|d]; simpl; try (by right); try (left; by eexists).
  destruct (forallb hashable l); [left; by eexists | by right].
Qed.

Lemma get_user_groups_cases
    (self : authenticator) (key : pystr) (user_info : pydict) :
  claim_groups_key self = Key key ->
  (exists groups, get_user_groups self user_info = ret groups)
  \/ get_user_groups self user_info
     = mkM [(ERROR, MsgGroupsKeyNotFound key)] (Ok []).
Proof.
  intros Hkey. unfold get_user_groups, groups_at_path. rewrite Hkey.
  destruct (reduce_dict_get_cases (PyStr.split (PyStr.ord ".") key)
              (PDict user_info))
    as [[v ->] | ->]; [|by right].
  rewrite bind_ret.
  destruct (py_set_cases v) as [[s ->] | ->]; [left; by exists s | by right].
Qed.

(** X15. With a string [claim_groups_key], [get_user_groups] never raises:
    it returns the groups it found and logs nothing, or it logs one error
    naming the key and returns the empty set. *)
Theorem get_user_groups_never_raises
    (self : authenticator) (key : pystr) (user_info : pydict) :
  claim_groups_key self = Key key ->
  exists groups : pyset,
    outcome (get_user_groups self user_info) = Ok groups
    /\ (logged (get_user_groups self user_info) = []
        \/ (logged (get_user_groups self user_info)
            = [(ERROR, MsgGroupsKeyNotFound key)]
            /\ groups = [])).
Proof.
  intros Hkey.
  destruct (get_user_groups_cases self key user_info Hkey) as [[groups ->] | ->].
  - exists groups. split; [done|by left].
  - exists []. split; [done|by right].
Qed.

(** X16. A groups claim that is a list of strings gives exactly these
    strings as the groups of the user. *)
Theorem groups_list_gives_its_items
    (self : authenticator) (key : pystr) (user_info : pydict)
    (names : list pystr) :
  claim_groups_key self = Key key ->
  extract_path (PyStr.split (PyStr.ord ".") key) (PDict user_info)
  = Some (PList (PStr <$> names)) ->
  get_user_groups self user_info = ret (PStr <$> names)
  /\ forall g : pystr, g ∈ str_members (PStr <$> names) <-> g ∈ names.
Proof.
  intros Hkey Hfound. split.
  - unfold get_user_groups.
    rewrite Hkey, (groups_at_path_found _ _ _ Hfound). simpl.
    assert (forallb hashable (PStr <$> names) = true) as ->; [|done].
    clear. induction names as [|g names IH]; [done|].
    rewrite fmap_cons. simpl. apply IH.
  - intros g. by rewrite str_members_strings, elem_of_list_to_set.
Qed.

(** X17. A groups claim that is a list holding a list or an object gives no
    group at all: [set] cannot hash the item, and the [TypeError] is reported
    as a missing key. The strings beside it in the list are lost. *)
Theorem unhashable_item_discards_the_groups
    (self : authenticator) (key : pystr) (user_info : pydict)
    (items : list pyval) (item : pyval) :
  claim_groups_key self = Key key ->
  extract_path (PyStr.split (PyStr.ord ".") key) (PDict user_info)
  = Some (PList items) ->
  item ∈ items ->
  hashable item = false ->
  get_user_groups self user_info
  = mkM [(ERROR, MsgGroupsKeyNotFound key)] (Ok []).
Proof.
  intros Hkey Hfound Hitem Hunhashable. unfold get_user_groups.
  rewrite Hkey, (groups_at_path_found _ _ _ Hfound). simpl.
  assert (forallb hashable items = false) as ->; [|done].
  apply not_true_iff_false. intros Hall.
  rewrite forallb_forall in Hall.
  apply list_elem_of_In in Hitem. specialize (Hall _ Hitem). congruence.
Qed.

(** X18. With a string [claim_groups_key], [check_allowed] never raises, and
    it allows exactly when the base class allows or some group with a name
    other than the empty string is both an allowed group and a group of the
    user. *)
Theorem check_allowed_with_groups_key
    (self : authenticator) (username : pyval) (am : auth_model) (key : pystr) :
  claim_groups_key self = Key key ->
  exists (groups : pyset) (allowed : bool),
    outcome (get_user_groups self (auth_state_user_info am)) = Ok groups
    /\ outcome (check_allowed self username am) = Ok allowed
    /\ (allowed = true <->
        super_check_allowed self username am = true
        \/ exists g : pystr,
             g <> "" /\ g ∈ allowed_groups self /\ g ∈ str_members groups).
Proof.
  intros Hkey.
  assert (exists groups,
            outcome (get_user_groups self (auth_state_user_info am)) = Ok groups)
    as [groups Hgroups].
  { destruct (get_user_groups_cases self key (auth_state_user_info am) Hkey)
      as [[groups ->] | ->]; by eexists. }
  exists groups. eexists. split; [done|].
  split; [by apply (check_allowed_outcome self am groups)|].
  rewrite orb_true_iff, py_any_true. unfold set_and.
  split.
  - intros [?|(g & [Hmember Hallowed]%elem_of_intersection & Hne)]; [by left|].
    right. by exists g.
  - intros [?|(g & Hne & Hallowed & Hmember)]; [by left|].
    right. exists g. split; [|done]. by apply elem_of_intersection.
Qed.

Lemma get_user_groups_same_key
    (self self' : authenticator) (user_info : pydict) :
  claim_groups_key self' = claim_groups_key self ->
  get_user_groups self' user_info = get_user_groups self user_info.
Proof. intros Hkey. unfold get_user_groups. by rewrite Hkey. Qed.

(** X19. Allowing more groups never takes access away: a user allowed by
    [check_allowed] stays allowed when [allowed_groups] grows and nothing else
    changes. *)
Theorem allowing_more_groups_keeps_access
    (self self' : authenticator) (username : pyval) (am : auth_model) :
  claim_groups_key self' = claim_groups_key self ->
  super_check_allowed self' username am = super_check_allowed self username am ->
  allowed_groups self ⊆ allowed_groups self' ->
  outcome (check_allowed self username am) = Ok true ->
  outcome (check_allowed self' username am) = Ok true.
Proof.
  intros Hkey Hbase Hmore. unfold check_allowed. rewrite Hbase.
  destruct (super_check_allowed self username am); [done|].
  destruct (set_truthy (allowed_groups self)) eqn:Hconf; [|done].
  rewrite outcome_bind.
  destruct (outcome (get_user_groups self (auth_state_user_info am)))
    as [groups|e] eqn:Hgroups; [|done].
  destruct (py_any (set_and groups (allowed_groups self))) eqn:Hany; [|done].
  intros _. apply py_any_true in Hany as (g & Hg & Hne).
  unfold set_and in Hg. apply elem_of_intersection in Hg as [Hmember Hallowed].
  rewrite (set_truthy_elem g) by auto.
  rewrite outcome_bind, (get_user_groups_same_key self self' _ Hkey), Hgroups.
  rewrite (proj2 (py_any_true _)); [done|].
  exists g. split; [|done]. unfold set_and. apply elem_of_intersection. auto.
Qed.

(** X20. [update_auth_model] changes nothing but the admin flag; it returns
    the model of an admin as it came; without [admin_groups] it returns every
    model as it came; with [admin_groups] the flag it leaves is [True] or
    [False], never [None]; and updating the model it returned changes
    nothing. *)
Theorem update_auth_model_touches_only_admin
    (self : authenticator) (am am' : auth_model) :
  outcome (update_auth_model self am) = Ok am' ->
  name am' = name am
  /\ auth_state_user_info am' = auth_state_user_info am
  /\ (admin am = Some true -> am' = am)
  /\ (admin_groups self = ∅ -> am' = am)
  /\ (admin_groups self <> ∅ -> exists b : bool, admin am' = Some b)
  /\ outcome (update_auth_model self am') = Ok am'.
Proof.
  unfold update_auth_model at 1.
  destruct (admin_truthy am) eqn:Hadmin.
  - intros [= <-]. unfold update_auth_model. rewrite Hadmin.
    unfold admin_truthy in Hadmin.
    destruct (admin am) as [[]|] eqn:Hflag; try done.
    repeat split; try done. by exists true.
  - unfold set_truthy.
    destruct (decide (admin_groups self = ∅)) as [Hempty|Hconf].
    + rewrite (bool_decide_eq_true_2 _ Hempty). simpl.
      intros [= <-]. unfold update_auth_model, set_truthy.
      rewrite Hadmin, (bool_decide_eq_true_2 _ Hempty).
      unfold admin_truthy in Hadmin.
      repeat split; try done; intros Hflag; by rewrite Hflag in Hadmin.
    + rewrite (bool_decide_eq_false_2 _ Hconf). simpl.
      rewrite outcome_bind.
      destruct (outcome (get_user_groups self (auth_state_user_info am)))
        as [groups|e] eqn:Hgroups; [|done].
      simpl. intros [= <-].
      split; [done|]. split; [done|]. split.
      { unfold admin_truthy in Hadmin. intros Hflag. by rewrite Hflag in Hadmin. }
      split; [done|]. split; [by eexists|].
      unfold update_auth_model, set_truthy.
      destruct (py_any (set_and groups (admin_groups self))) eqn:Hany; [done|].
      simpl. rewrite (bool_decide_eq_false_2 _ Hconf). simpl.
      by rewrite outcome_bind, Hgroups, Hany.
Qed.

End MoreGeneric.

(** ** Runs of the further properties on the sample configurations *)

Section MoreRuns.
Import Sample SampleLogin.
Local Existing Instance sample_library.

(** A run of X1: the e-mail claim of a University of Toronto document. *)
Lemma unprocessed_username_is_nonempty_claim_witness :
  truthy (PStr "alice@utoronto.ca") = true
  /\ exists (idp : pystr) (cfg : CILogon.idp_config)
            (ud : CILogon.username_derivation_t) (claim : pystr),
       doc [("idp", PStr utoronto); ("email", PStr "alice@utoronto.ca")] !! "idp"
       = Some (PStr idp)
       /\ CILogon.assoc (CILogon.allowed_idps cilogon) idp = Some cfg
       /\ CILogon.username_derivation cfg = Some ud
       /\ CILogon.username_claim ud = Some claim
       /\ doc [("idp", PStr utoronto); ("email", PStr "alice@utoronto.ca")] !! claim
          = Some (PStr "alice@utoronto.ca").
Proof.
  apply (unprocessed_username_is_nonempty_claim cilogon
           (doc [("idp", PStr utoronto); ("email", PStr "alice@utoronto.ca")])
           (PStr "alice@utoronto.ca")).
  vm_compute. reflexivity.
Defined.

(** A run of X2: a GitHub document without the [username] claim. *)
Lemma missing_username_claim_aborts_with_500_witness :
  outcome (CILogon.user_info_to_username cilogon
             (doc [("idp", PStr github); ("email", PStr "octocat@github.com")]))
  = Raise (HTTPError 500
             (MsgUsernameClaimNotFound "username" (PStr github)
                (dom (doc [("idp", PStr github);
                           ("email", PStr "octocat@github.com")])))).
Proof.
  rewrite (missing_username_claim_aborts_with_500 cilogon
             (doc [("idp", PStr github); ("email", PStr "octocat@github.com")])
             github
             (CILogon.mk_idp_config
                (Some (CILogon.mk_username_derivation
                         (Some "username") (Some "prefix") None (Some "gh")))
                None)
             (CILogon.mk_username_derivation
                (Some "username") (Some "prefix") None (Some "gh"))
             "username"
             ltac:(vm_compute; reflexivity) ltac:(discriminate)
             ltac:(vm_compute; reflexivity) ltac:(reflexivity)
             ltac:(reflexivity) ltac:(vm_compute; reflexivity)).
  reflexivity.
Defined.

(** A run of X3: a numeric [uid] claim under [strip_idp_domain]. *)
Lemma strip_idp_domain_needs_a_string_witness :
  CILogon.user_info_to_username numeric_cilogon
    (doc [("idp", PStr utoronto); ("uid", PInt 1234)])
  = raise AttributeError.
Proof.
  apply (strip_idp_domain_needs_a_string numeric_cilogon
           (doc [("idp", PStr utoronto); ("uid", PInt 1234)])
           utoronto
           (CILogon.mk_idp_config
              (Some (CILogon.mk_username_derivation
                       (Some "uid") (Some "strip_idp_domain")
                       (Some "utoronto.ca") None))
              None)
           (CILogon.mk_username_derivation
              (Some "uid") (Some "strip_idp_domain") (Some "utoronto.ca") None)
           "uid"
           ltac:(vm_compute; reflexivity) ltac:(discriminate)
           ltac:(vm_compute; reflexivity) ltac:(reflexivity)
           ltac:(reflexivity)
           "utoronto.ca" (PInt 1234)
           ltac:(reflexivity) ltac:(reflexivity)
           ltac:(vm_compute; reflexivity) ltac:(reflexivity)
           ltac:(discriminate)).
Defined.

(** A run of X4: the GitHub entry gives the claim [1234], a number, and the
    claim ["1234"], a string, the same username: the two claims have the
    same text. *)
Lemma prefixed_usernames_do_not_collide_witness :
  CILogon._get_processed_username cilogon (PInt 1234)
    (doc [("idp", PStr github); ("username", PInt 1234)])
  = CILogon._get_processed_username cilogon (PStr "1234")
      (doc [("idp", PStr github); ("username", PStr "1234")]).
Proof.
  destruct (prefixed_usernames_do_not_collide cilogon
              (doc [("idp", PStr github); ("username", PInt 1234)])
              (doc [("idp", PStr github); ("username", PStr "1234")])
              github github
              (CILogon.mk_idp_config
                 (Some (CILogon.mk_username_derivation
                          (Some "username") (Some "prefix") None (Some "gh")))
                 None)
              (CILogon.mk_idp_config
                 (Some (CILogon.mk_username_derivation
                          (Some "username") (Some "prefix") None (Some "gh")))
                 None)
              (CILogon.mk_username_derivation
                 (Some "username") (Some "prefix") None (Some "gh"))
              (CILogon.mk_username_derivation
                 (Some "username") (Some "prefix") None (Some "gh"))
              "gh" "gh" (PInt 1234) (PStr "1234")
              ltac:(vm_compute; reflexivity) ltac:(vm_compute; reflexivity)
              ltac:(reflexivity) ltac:(reflexivity) ltac:(reflexivity)
              ltac:(vm_compute; reflexivity) ltac:(vm_compute; reflexivity)
              ltac:(reflexivity) ltac:(reflexivity) ltac:(reflexivity)
              ltac:(reflexivity) ltac:(reflexivity))
    as [_ Hsame].
  apply Hsame; reflexivity.
Defined.

(** A run of X5: the username of a GitHub document. *)
Lemma username_implies_allowed_idp_witness :
  exists (s : pystr) (cfg : CILogon.idp_config),
    doc [("idp", PStr github); ("username", PStr "octocat")] !! "idp"
    = Some (PStr s)
    /\ CILogon.assoc (CILogon.allowed_idps cilogon) s = Some cfg.
Proof.
  apply (username_implies_allowed_idp cilogon
           (doc [("idp", PStr github); ("username", PStr "octocat")])
           (PStr "gh:octocat")).
  vm_compute. reflexivity.
Defined.

(** A run of X6: the GitHub entry has no [allowed_domains]. *)
Lemma check_allowed_without_allowed_domains_witness :
  CILogon.check_allowed cilogon (PStr "gh:octocat")
    (model "gh:octocat" [("idp", PStr github); ("username", PStr "octocat")])
  = ret false.
Proof.
  apply (check_allowed_without_allowed_domains cilogon (PStr "gh:octocat")
           (model "gh:octocat" [("idp", PStr github); ("username", PStr "octocat")])
           github
           (CILogon.mk_idp_config
              (Some (CILogon.mk_username_derivation
                       (Some "username") (Some "prefix") None (Some "gh")))
              None)).
  - vm_compute. reflexivity.
  - vm_compute. reflexivity.
  - left. reflexivity.
Defined.

(** A run of X7: [bob@UNI.edu] against the allowed domain [uni.edu]. *)
Lemma check_allowed_lowercase_domains_witness :
  CILogon.check_allowed cilogon (PStr "bob@UNI.edu")
    (model "bob@UNI.edu" [("idp", PStr google); ("username", PStr "bob@UNI.edu")])
  = ret true.
Proof.
  destruct (check_allowed_lowercase_domains cilogon
              (doc [("idp", PStr google); ("username", PStr "bob@UNI.edu")])
              google
              (CILogon.mk_idp_config
                 (Some (CILogon.mk_username_derivation
                          (Some "username") None None None))
                 (Some ["uni.edu"; "something.org"]))
              (CILogon.mk_username_derivation (Some "username") None None None)
              "username"
              ltac:(vm_compute; reflexivity) ltac:(vm_compute; reflexivity)
              ltac:(reflexivity) ltac:(reflexivity)
              (PStr "bob@UNI.edu")
              (model "bob@UNI.edu"
                 [("idp", PStr google); ("username", PStr "bob@UNI.edu")])
              ["uni.edu"; "something.org"] "bob@UNI.edu"
              ltac:(reflexivity) ltac:(reflexivity) ltac:(reflexivity)
              ltac:(discriminate) ltac:(vm_compute; reflexivity)
              ltac:(discriminate)
              "bob" "UNI.edu"
              ltac:(repeat constructor) ltac:(reflexivity) ltac:(reflexivity))
    as [Hmatch _].
  apply Hmatch. exists "uni.edu". split; [compute_done | reflexivity].
Defined.


(** A run of X10: an entry without [username_derivation], under a key that
    is no entity id either. *)
Lemma validate_allowed_idps_schema_error_witness :
  CILogon._validate_allowed_idps CILogon.cilogon_schema
    [ (utoronto,
       CILogon.mk_idp_config
         (Some (CILogon.mk_username_derivation (Some "email") None None None))
         None);
      ("uni.edu", CILogon.mk_idp_config None (Some ["uni.edu"])) ]
  = raise ValidationError.
Proof.
  apply (validate_allowed_idps_schema_error CILogon.cilogon_schema
           [ (utoronto,
              CILogon.mk_idp_config
                (Some (CILogon.mk_username_derivation (Some "email") None None None))
                None) ]
           [] "uni.edu" (CILogon.mk_idp_config None (Some ["uni.edu"]))).
  - constructor; [|constructor]. split; [reflexivity|].
    exists "https". split; [vm_compute; reflexivity | compute_done].
  - reflexivity.
Defined.

(** A run of X12: the caller passes a [selected_idp] and a [prompt]; the
    authenticator has a skin. *)
Lemma authorize_redirect_forwards_witness :
  exists kwargs' extra_params : pydict,
    CILogonLogin.authorize_redirect skinned
      (doc [("redirect_uri", PStr "https://hub.example.org/hub/oauth_callback");
            ("extra_params",
             PDict (doc [("selected_idp", PStr "https://idp.example.org");
                         ("prompt", PStr "login")]))])
    = ret kwargs'
    /\ kwargs' !! "extra_params" = Some (PDict extra_params)
    /\ kwargs' !! "redirect_uri"
       = Some (PStr "https://hub.example.org/hub/oauth_callback")
    /\ extra_params !! "selected_idp"
       = Some (PStr (utoronto ++ "," ++ github ++ "," ++ google))
    /\ extra_params !! "skin" = Some (PStr "LIGO")
    /\ extra_params !! "prompt" = Some (PStr "login").
Proof.
  destruct (authorize_redirect_forwards skinned
              (doc [("redirect_uri", PStr "https://hub.example.org/hub/oauth_callback");
                    ("extra_params",
                     PDict (doc [("selected_idp", PStr "https://idp.example.org");
                                 ("prompt", PStr "login")]))])
              (doc [("selected_idp", PStr "https://idp.example.org");
                    ("prompt", PStr "login")])
              ltac:(right; vm_compute; reflexivity))
    as (kwargs' & extra_params & Hret & Hextra & Hother & Hidp & Hskin & Hkept).
  exists kwargs', extra_params.
  split; [exact Hret|]. split; [exact Hextra|].
  split; [rewrite Hother by discriminate; vm_compute; reflexivity|].
  split; [exact Hidp|]. split; [exact Hskin|].
  rewrite Hkept by discriminate. vm_compute. reflexivity.
Defined.

(** A run of X13: the three entity ids of the sample configuration. *)
Lemma selected_idp_lists_the_allowed_idps_witness :
  exists (kwargs' extra_params : pydict) (selected_idp : pystr),
    CILogonLogin.authorize_redirect plain ∅ = ret kwargs'
    /\ kwargs' !! "extra_params" = Some (PDict extra_params)
    /\ extra_params !! "selected_idp" = Some (PStr selected_idp)
    /\ PyStr.split (PyStr.ord ",") selected_idp = [utoronto; github; google].
Proof.
  apply (selected_idp_lists_the_allowed_idps plain ∅ ∅).
  - left. split; reflexivity.
  - discriminate.
  - repeat constructor.
Defined.

(** A run of X14: the [username] key of a generic document. *)
Lemma username_key_iff_witness :
  outcome (Generic.user_info_to_username staff_ops
             (doc [("username", PStr "bob")]))
  = Ok (PStr "bob").
Proof.
  apply (username_key_iff staff_ops (doc [("username", PStr "bob")])
           "username" (PStr "bob") ltac:(reflexivity)).
  split; vm_compute; reflexivity.
Defined.

(** A run of X15: a document without the groups claim. *)
Lemma get_user_groups_never_raises_witness :
  exists groups : Generic.pyset,
    outcome (Generic.get_user_groups staff_ops (doc [("username", PStr "bob")]))
    = Ok groups.
Proof.
  destruct (get_user_groups_never_raises staff_ops "groups"
              (doc [("username", PStr "bob")]) ltac:(reflexivity))
    as (groups & Hgroups & _).
  exists groups. exact Hgroups.
Defined.

(** A run of X16: the groups [staff] and [alumni]. *)
Lemma groups_list_gives_its_items_witness :
  Generic.get_user_groups staff_ops
    (doc [("groups", PList [PStr "staff"; PStr "alumni"])])
  = ret [PStr "staff"; PStr "alumni"].
Proof.
  apply (groups_list_gives_its_items staff_ops "groups"
           (doc [("groups", PList [PStr "staff"; PStr "alumni"])])
           ["staff"; "alumni"] ltac:(reflexivity)
           ltac:(vm_compute; reflexivity)).
Defined.

(** A run of X17: a nested list beside the group [staff]. *)
Lemma unhashable_item_discards_the_groups_witness :
  Generic.get_user_groups staff_ops
    (doc [("groups", PList [PStr "staff"; PList [PStr "ops"]])])
  = mkM [(ERROR, MsgGroupsKeyNotFound "groups")] (Ok []).
Proof.
  apply (unhashable_item_discards_the_groups staff_ops "groups"
           (doc [("groups", PList [PStr "staff"; PList [PStr "ops"]])])
           [PStr "staff"; PList [PStr "ops"]] (PList [PStr "ops"])
           ltac:(reflexivity) ltac:(vm_compute; reflexivity)).
  - apply elem_of_cons. right. apply elem_of_cons. by left.
  - reflexivity.
Defined.

(** A run of X18: a member of [staff]. *)
Lemma check_allowed_with_groups_key_witness :
  exists (groups : Generic.pyset) (allowed : bool),
    outcome (Generic.get_user_groups staff_ops
               (doc [("groups", PList [PStr "staff"])])) = Ok groups
    /\ outcome (Generic.check_allowed staff_ops (PStr "bob")
                  (model "bob" [("groups", PList [PStr "staff"])]))
       = Ok allowed.
Proof.
  destruct (check_allowed_with_groups_key staff_ops (PStr "bob")
              (model "bob" [("groups", PList [PStr "staff"])]) "groups"
              ltac:(reflexivity))
    as (groups & allowed & Hgroups & Hallowed & _).
  exists groups, allowed. split; [exact Hgroups | exact Hallowed].
Defined.

(** A run of X19: [faculty] is allowed besides [staff]. *)
Lemma allowing_more_groups_keeps_access_witness :
  outcome (Generic.check_allowed (generic "groups" ["staff"; "faculty"] [])
             (PStr "bob") (model "bob" [("groups", PList [PStr "staff"])]))
  = Ok true.
Proof.
  apply (allowing_more_groups_keeps_access
           (generic "groups" ["staff"] [])
           (generic "groups" ["staff"; "faculty"] [])
           (PStr "bob") (model "bob" [("groups", PList [PStr "staff"])])
           ltac:(reflexivity) ltac:(reflexivity)).
  - compute_done.
  - vm_compute. reflexivity.
Defined.

(** A run of X20: a member of [ops] becomes an admin, and stays one. *)
Lemma update_auth_model_touches_only_admin_witness :
  outcome (Generic.update_auth_model staff_ops
             (set_admin (model "bob" [("groups", PList [PStr "ops"])]) true))
  = Ok (set_admin (model "bob" [("groups", PList [PStr "ops"])]) true).
Proof.
  apply (update_auth_model_touches_only_admin staff_ops
           (model "bob" [("groups", PList [PStr "ops"])])
           (set_admin (model "bob" [("groups", PList [PStr "ops"])]) true)).
  vm_compute. reflexivity.
Defined.

End MoreRuns.
